(** * cognitive_os: a shallow embedding of the orchestration core

    The development follows the Python sources module by module:
    [core/models.py], [core/emotion.py], [core/memory.py],
    [core/agents_base.py], [core/orchestrator.py],
    [agents/security_review_agent.py] and [agents/meta_router_agent.py].

    Conventions.
    - A Python [float] is a rational number ([Q]); arithmetic is exact, so
      rounding, infinities and NaN are outside the model.  Equalities between
      floats are stated with [==].
    - A Python [str] is a [string]; [str.lower] acts on the ASCII letters.
    - A raised exception is the left summand of [Result].
    - A [datetime] is the integer number of microseconds it denotes; the
      ISO-8601 text stored in SQLite orders the same way.
    - A SQLite table is the list of its rows in rowid order. *)

From Stdlib Require Import ZArith QArith Qpower Lqa Lia Bool List String Ascii.
From stdpp Require Import gmap strings pretty.
Import ListNotations.

Local Open Scope string_scope.
Local Open Scope Z_scope.

(** ** Python helpers *)

Module Py.

Definition float := Q.

(** [max(a, b)] keeps [a] unless [b > a]; [min(a, b)] keeps [a] unless
    [b < a] (the built-ins compare left to right). *)
Definition max (a b : float) : float := if Qlt_le_dec a b then b else a.
Definition min (a b : float) : float := if Qlt_le_dec b a then b else a.

(** [x or 0.0] on a float. *)
Definition float_or (x d : float) : float :=
  if Qeq_bool x 0%Q then d else x.

(** [str.lower], on ASCII. *)
Definition lower_ascii (c : ascii) : ascii :=
  let n := nat_of_ascii c in
  if (Nat.leb 65 n && Nat.leb n 90)%bool then ascii_of_nat (n + 32) else c.

Fixpoint lower (s : string) : string :=
  match s with
  | EmptyString => EmptyString
  | String c s' => String (lower_ascii c) (lower s')
  end.

(** [needle in hay] on strings. *)
Fixpoint contains (hay needle : string) : bool :=
  String.prefix needle hay
  || match hay with
     | EmptyString => false
     | String _ hay' => contains hay' needle
     end.

(** The line feed between the quotes of a Python string. *)
Definition nl : string := String (ascii_of_nat 10) EmptyString.

(** [sep.join(parts)]. *)
Fixpoint join (sep : string) (parts : list string) : string :=
  match parts with
  | [] => ""
  | [p] => p
  | p :: ps => p ++ sep ++ join sep ps
  end.

(** Exceptions that the modelled code raises. *)
Inductive Exn : Type :=
| KeyError (msg : string)
| ValueError (msg : string)
| IntegrityError (msg : string)
| Exception (msg : string).

(** [str(exc)]; a [KeyError] shows its argument quoted. *)
Definition str_exn (e : Exn) : string :=
  match e with
  | KeyError m => "'" ++ m ++ "'"
  | ValueError m | IntegrityError m | Exception m => m
  end.

Definition Result (A : Type) : Type := Exn + A.
Definition ret {A} (a : A) : Result A := inr a.
Definition raise {A} (e : Exn) : Result A := inl e.
Definition bind {A B} (m : Result A) (k : A -> Result B) : Result B :=
  match m with
  | inl e => inl e
  | inr a => k a
  end.

End Py.

Notation "'try!' x ':=' m 'in' k" := (Py.bind m (fun x => k))
  (at level 10, x name, m at level 100, k at level 200).

(** ** core/models.py *)

Module Models.

Inductive TaskStatus := PENDING | RUNNING | DONE | ERROR.

Definition TaskStatus_eqb (a b : TaskStatus) : bool :=
  match a, b with
  | PENDING, PENDING | RUNNING, RUNNING | DONE, DONE | ERROR, ERROR => true
  | _, _ => false
  end.

Inductive AgentRunStatus := SUCCESS | FAILURE.

Inductive MemoryScope := USER | PROJECT | GLOBAL | CONVERSATION.
Inductive MemoryType := EPISODIC | SEMANTIC | PROCEDURAL.

Inductive EventType :=
| REQUEST_RECEIVED | PLAN_CREATED | TASK_ASSIGNED
| AGENT_RUN_COMPLETED | AGENT_RUN_FAILED.

(** A JSON object handed through unread: keys and the JSON text of their
    values. *)
Definition Dict := list (string * string).

(** The keys of [output_payload] that the orchestrator reads, at the types
    the agent contract gives them; [None] is an absent key. *)
Record Payload := {
  user_visible_message : option string;
  stop_for_user_input : option bool;
  error : option string
}.

Definition empty_payload : Payload :=
  {| user_visible_message := None; stop_for_user_input := None;
     error := None |}.

Record Task := {
  id : string;
  description : string;
  agent_name : string;
  input_payload : Dict;
  status : TaskStatus;
  result : option Payload;
  task_error : option string;
  depends_on : list string;
  max_retries : Z;
  retry_count : Z
}.

Definition set_status (t : Task) (s : TaskStatus) : Task :=
  {| id := t.(id); description := t.(description);
     agent_name := t.(agent_name); input_payload := t.(input_payload);
     status := s; result := t.(result); task_error := t.(task_error);
     depends_on := t.(depends_on); max_retries := t.(max_retries);
     retry_count := t.(retry_count) |}.

Definition mark_running (t : Task) : Task := set_status t RUNNING.

Definition mark_done (t : Task) (r : Payload) : Task :=
  {| id := t.(id); description := t.(description);
     agent_name := t.(agent_name); input_payload := t.(input_payload);
     status := DONE; result := Some r; task_error := t.(task_error);
     depends_on := t.(depends_on); max_retries := t.(max_retries);
     retry_count := t.(retry_count) |}.

Definition mark_error (t : Task) (e : string) : Task :=
  {| id := t.(id); description := t.(description);
     agent_name := t.(agent_name); input_payload := t.(input_payload);
     status := ERROR; result := t.(result); task_error := Some e;
     depends_on := t.(depends_on); max_retries := t.(max_retries);
     retry_count := t.(retry_count) |}.

(** The retry branch of [_execute_task] assigns three fields in place. *)
Definition requeue (t : Task) (e : string) : Task :=
  {| id := t.(id); description := t.(description);
     agent_name := t.(agent_name); input_payload := t.(input_payload);
     status := PENDING; result := t.(result); task_error := Some e;
     depends_on := t.(depends_on); max_retries := t.(max_retries);
     retry_count := t.(retry_count) + 1 |}.

Record Plan := {
  plan_id : string;
  tasks : list Task;
  governance_mode_meta : bool
}.

(** [next((t for t in self.tasks if t.id == dep_id), None)] *)
Definition find_task (ts : list Task) (dep_id : string) : option Task :=
  List.find (fun t => String.eqb t.(id) dep_id) ts.

(** The inner loop of [get_next_task]: an unknown dependency is skipped,
    a PENDING or RUNNING one clears [ready]. *)
Fixpoint deps_ready (ts : list Task) (deps : list string) : bool :=
  match deps with
  | [] => true
  | dep_id :: rest =>
      match find_task ts dep_id with
      | None => deps_ready ts rest
      | Some dep =>
          match dep.(status) with
          | PENDING | RUNNING => false
          | _ => deps_ready ts rest
          end
      end
  end.

(** The outer loop, over a suffix [l] of the task list [ts]; the position
    of the chosen task stands for the reference Python returns. *)
Fixpoint next_from (ts l : list Task) (i : nat) : option nat :=
  match l with
  | [] => None
  | t :: l' =>
      match t.(status) with
      | PENDING =>
          if deps_ready ts t.(depends_on) then Some i
          else next_from ts l' (S i)
      | _ => next_from ts l' (S i)
      end
  end.

Definition get_next_index (p : Plan) : option nat :=
  next_from p.(tasks) p.(tasks) 0.

Definition get_next_task (p : Plan) : option Task :=
  match get_next_index p with
  | Some i => p.(tasks) !! i
  | None => None
  end.

Definition has_pending_tasks (p : Plan) : bool :=
  existsb (fun t => TaskStatus_eqb t.(status) PENDING) p.(tasks).

Local Open Scope Q_scope.

Record EmotionDelta := {
  d_curiosity : Py.float;
  d_fatigue : Py.float;
  d_frustration : Py.float;
  d_confidence : Py.float;
  d_mood : Py.float;
  d_energy : Py.float;
  d_playfulness : Py.float;
  d_social_need : Py.float;
  d_learning_drive : Py.float
}.

(** [EmotionDelta()] *)
Definition delta0 : EmotionDelta :=
  {| d_curiosity := 0; d_fatigue := 0; d_frustration := 0;
     d_confidence := 0; d_mood := 0; d_energy := 0; d_playfulness := 0;
     d_social_need := 0; d_learning_drive := 0 |}.

Record EmotionalState := {
  curiosity : Py.float;
  fatigue : Py.float;
  frustration : Py.float;
  confidence : Py.float;
  mood : Py.float;
  energy : Py.float;
  playfulness : Py.float;
  social_need : Py.float;
  learning_drive : Py.float
}.

(** [EmotionalState()] *)
Definition state0 : EmotionalState :=
  {| curiosity := 0.5; fatigue := 0; frustration := 0; confidence := 0.5;
     mood := 0; energy := 0.6; playfulness := 0.3; social_need := 0.4;
     learning_drive := 0.7 |}.

Definition _clamp01 (value : Py.float) : Py.float :=
  Py.max 0 (Py.min 1 value).

Definition _clamp (value min_value max_value : Py.float) : Py.float :=
  Py.max min_value (Py.min max_value value).

Definition apply_delta (self : EmotionalState) (delta : EmotionDelta)
  : EmotionalState :=
  {| curiosity := _clamp01 (self.(curiosity) + delta.(d_curiosity));
     fatigue := _clamp01 (self.(fatigue) + delta.(d_fatigue));
     frustration := _clamp01 (self.(frustration) + delta.(d_frustration));
     confidence := _clamp01 (self.(confidence) + delta.(d_confidence));
     mood := _clamp (self.(mood) + delta.(d_mood)) (-1) 1;
     energy := _clamp01 (self.(energy) + delta.(d_energy));
     playfulness := _clamp01 (self.(playfulness) + delta.(d_playfulness));
     social_need := _clamp01 (self.(social_need) + delta.(d_social_need));
     learning_drive :=
       _clamp01 (self.(learning_drive) + delta.(d_learning_drive)) |}.

Record AgentRun := {
  run_id : string;
  run_agent_name : string;
  run_input_payload : Dict;
  output_payload : Payload;
  run_status : AgentRunStatus;
  emotion_delta : EmotionDelta;
  started_at : Z;
  finished_at : Z
}.

End Models.

(** ** core/emotion.py *)

Module Emotion.
Import Models.
Local Open Scope Q_scope.

Definition apply_decay_between_turns (state : EmotionalState)
  : EmotionalState :=
  let baseline_energy := 0.6 in
  {| curiosity := state.(curiosity);
     fatigue := state.(fatigue) * 0.9;
     frustration := state.(frustration) * 0.9;
     confidence := state.(confidence);
     mood := state.(mood) * 0.95;
     energy := state.(energy) + (baseline_energy - state.(energy)) * 0.1;
     playfulness := state.(playfulness) * 0.98;
     social_need := state.(social_need) * 0.98;
     learning_drive := Py.min 1 (state.(learning_drive) * 0.99 + 0.01) |}.

Definition is_success (run : AgentRun) : bool :=
  match run.(run_status) with SUCCESS => true | FAILURE => false end.

(** [agent_name = run.agent_name.lower()] and the three tests on it. *)
Definition name_has (run : AgentRun) (needle : string) : bool :=
  Py.contains (Py.lower run.(run_agent_name)) needle.

(** The [delta] that [update_on_agent_run] accumulates, field by field:
    each field starts at [0.0] and receives, in program order, the
    increments of the branches that are taken. *)
Definition run_delta (run : AgentRun) : EmotionDelta :=
  let ok := is_success run in
  let requirements := name_has run "requirements" in
  let analysis_planner := name_has run "analysis_planner" in
  let chat_agent := name_has run "chat_agent" in
  {| d_curiosity :=
       (let c := if ok then 0 + 0.02 else 0 in
        if analysis_planner && ok then c + 0.03 else c);
     d_fatigue := (if ok then 0 + 0.005 else 0 + 0.03);
     d_frustration :=
       (let f := if ok then 0 - 0.02 else 0 + 0.08 in
        if requirements && negb ok then f + 0.05 else f);
     d_confidence := (if ok then 0 + 0.05 else 0 - 0.05);
     d_mood :=
       (let m := if ok then 0 + 0.05 else 0 - 0.08 in
        if requirements && negb ok then m - 0.03 else m);
     d_energy := (if ok then 0 + 0.03 else 0 - 0.02);
     d_playfulness := 0;
     d_social_need :=
       (let s := if ok then 0 else 0 + 0.05 in
        if chat_agent then s - 0.02 else s);
     d_learning_drive :=
       (let l := if ok then 0 + 0.02 else 0 in
        if analysis_planner && ok then l + 0.03 else l) |}.

Definition update_on_agent_run (state : EmotionalState) (run : AgentRun)
  : EmotionalState :=
  apply_delta state (run_delta run).

(** The social-need increment that depends on the status alone. *)
Definition status_social_need (run : AgentRun) : Py.float :=
  if is_success run then 0 else 0 + 0.05.

(** The declared ranges of the nine components. *)
Definition in01 (x : Py.float) : Prop := 0 <= x /\ x <= 1.

Definition in_ranges (s : EmotionalState) : Prop :=
  in01 s.(curiosity) /\ in01 s.(fatigue) /\ in01 s.(frustration) /\
  in01 s.(confidence) /\ in01 s.(energy) /\ in01 s.(playfulness) /\
  in01 s.(social_need) /\ in01 s.(learning_drive) /\
  (-1 <= s.(mood) /\ s.(mood) <= 1).

End Emotion.

(** ** core/memory.py *)

Module Memory.
Import Models.

Definition MemoryScope_eqb (a b : MemoryScope) : bool :=
  match a, b with
  | USER, USER | PROJECT, PROJECT | GLOBAL, GLOBAL
  | CONVERSATION, CONVERSATION => true
  | _, _ => false
  end.

Definition MemoryType_eqb (a b : MemoryType) : bool :=
  match a, b with
  | EPISODIC, EPISODIC | SEMANTIC, SEMANTIC | PROCEDURAL, PROCEDURAL => true
  | _, _ => false
  end.

(** A row of [memory_items]; also the [MemoryItem] dataclass. *)
Record MemoryItem := {
  item_id : string;
  item_scope : MemoryScope;
  item_type : MemoryType;
  item_key : string;
  item_content : string;
  item_metadata : Dict;
  item_created_at : Z
}.

(** A row of [agent_runs]; the four REAL columns are nullable. *)
Record RunRow := {
  row_id : string;
  row_agent_name : string;
  row_input_json : Dict;
  row_output_json : Payload;
  row_status : AgentRunStatus;
  row_curiosity : option Py.float;
  row_fatigue : option Py.float;
  row_frustration : option Py.float;
  row_confidence : option Py.float;
  row_started_at : Z;
  row_finished_at : Z
}.

(** A value of an agent definition's [config] dict: a string, or
    anything else (kept as its JSON text). *)
Inductive ConfigValue :=
| CStr (s : string)
| COther (json : string).

Definition Config := list (string * ConfigValue).

(** A row of [agent_definitions]. *)
Record DefRow := {
  def_id : string;
  def_name : string;
  def_description : string;
  def_config_json : Config;
  def_created_at : Z;
  def_is_active : Z;
  def_parent_id : option string;
  def_lifecycle_state : string
}.

(** The dict that travels between the governance agents and the store;
    [None] is an absent key. *)
Record AgentDefinition := {
  ad_id : string;
  ad_name : string;
  ad_description : option string;
  ad_config : option Config;
  ad_created_at : option Z;
  ad_is_active : option bool;
  ad_parent_id : option string;
  ad_lifecycle_state : option string;
  ad_security_flags : option (list string)
}.

Record TaskDump := {
  dump_id : string;
  dump_agent_name : string;
  dump_description : string;
  dump_depends_on : list string;
  dump_max_retries : Z
}.

(** The payloads the orchestrator passes to [log_event]. *)
Inductive EventPayload :=
| RequestReceived (conversation_id user_message : string)
| PlanCreated (conversation_id : string) (plan : option string)
    (num_tasks : nat) (dump : list TaskDump) (warning : option string)
| TaskAssigned (plan task agent descr : string)
| AgentRunLogged (task agent run : string) (status : AgentRunStatus).

(** A row of [events].  The [id] and [timestamp] columns hold a fresh
    uuid4 and the clock reading; nothing reads them back here. *)
Record Event := {
  ev_type : EventType;
  ev_correlation_id : string;
  ev_payload : EventPayload
}.

Inductive MessageRole := ROLE_USER | ROLE_SYSTEM | ROLE_ASSISTANT | ROLE_AGENT.

Record Message := {
  msg_role : MessageRole;
  msg_content : string
}.

(** The SQLite file: five tables, each in rowid order. *)
Record Db := {
  messages : list Message;
  memory_items : list MemoryItem;
  agent_runs : list RunRow;
  agent_definitions : list DefRow;
  events : list Event
}.

Definition empty_db : Db :=
  {| messages := []; memory_items := []; agent_runs := [];
     agent_definitions := []; events := [] |}.

(** [ORDER BY col DESC]: a stable insertion sort, so rows with equal
    [col] stay in rowid order (SQL itself leaves their order open). *)
Fixpoint insert_desc {A} (col : A -> Z) (x : A) (l : list A) : list A :=
  match l with
  | [] => [x]
  | y :: l' =>
      if col y <=? col x then x :: y :: l' else y :: insert_desc col x l'
  end.

Definition order_by_desc {A} (col : A -> Z) (l : list A) : list A :=
  fold_right (insert_desc col) [] l.

(** [ORDER BY col ASC], stable as well. *)
Fixpoint insert_asc {A} (col : A -> Z) (x : A) (l : list A) : list A :=
  match l with
  | [] => [x]
  | y :: l' =>
      if col x <=? col y then x :: y :: l' else y :: insert_asc col x l'
  end.

Definition order_by_asc {A} (col : A -> Z) (l : list A) : list A :=
  fold_right (insert_asc col) [] l.

(** [LIMIT n]: a negative [n] means no limit. *)
Definition limit_rows {A} (n : Z) (l : list A) : list A :=
  if n <? 0 then l else firstn (Z.to_nat n) l.

(** *** memory_items *)

(** [store_item] with a [str] content.  [new_id] is the uuid4 drawn for
    the row (taken to be fresh, so the primary key never fires) and [now]
    is the clock reading that becomes [created_at]. *)
Definition store_item (db : Db) (new_id : string) (now : Z)
    (scope : MemoryScope) (type_ : MemoryType) (key content : string)
    (metadata : option Dict) : MemoryItem * Db :=
  let item :=
    {| item_id := new_id; item_scope := scope; item_type := type_;
       item_key := key; item_content := content;
       item_metadata := match metadata with Some m => m | None => [] end;
       item_created_at := now |} in
  (item,
   {| messages := db.(messages);
      memory_items := db.(memory_items) ++ [item];
      agent_runs := db.(agent_runs);
      agent_definitions := db.(agent_definitions);
      events := db.(events) |}).

(** The WHERE clause shared by [find_items_by_key] and
    [load_item_content]. *)
Definition item_matches (key : string) (scope : option MemoryScope)
    (type_ : option MemoryType) (it : MemoryItem) : bool :=
  String.eqb it.(item_key) key
  && match scope with
     | Some s => MemoryScope_eqb it.(item_scope) s
     | None => true
     end
  && match type_ with
     | Some t => MemoryType_eqb it.(item_type) t
     | None => true
     end.

Definition find_items_by_key (db : Db) (key : string)
    (scope : option MemoryScope) (type_ : option MemoryType) (limit : Z)
  : list MemoryItem :=
  limit_rows limit
    (order_by_desc item_created_at
       (List.filter (item_matches key scope type_) db.(memory_items))).

Definition load_item_content (db : Db) (key : string)
    (scope : option MemoryScope) (type_ : option MemoryType)
  : option string :=
  match limit_rows 1
          (order_by_desc item_created_at
             (List.filter (item_matches key scope type_) db.(memory_items)))
  with
  | [] => None
  | row :: _ => Some row.(item_content)
  end.

(** [store_item] called with the fields of [it]: what a later call that
    creates the item [it] does to the store. *)
Definition store_again (db : Db) (it : MemoryItem) : Db :=
  snd (store_item db it.(item_id) it.(item_created_at) it.(item_scope)
         it.(item_type) it.(item_key) it.(item_content)
         (Some it.(item_metadata))).

Definition store_all (db : Db) (later : list MemoryItem) : Db :=
  fold_left store_again later db.

(** *** agent_runs *)

(** [INSERT OR REPLACE]: a row with the same id is deleted, the new row
    goes to the end.  Five of the nine delta components have no column. *)
Definition log_agent_run (db : Db) (run : AgentRun) : Db :=
  let row :=
    {| row_id := run.(run_id);
       row_agent_name := run.(run_agent_name);
       row_input_json := run.(run_input_payload);
       row_output_json := run.(output_payload);
       row_status := run.(run_status);
       row_curiosity := Some run.(emotion_delta).(d_curiosity);
       row_fatigue := Some run.(emotion_delta).(d_fatigue);
       row_frustration := Some run.(emotion_delta).(d_frustration);
       row_confidence := Some run.(emotion_delta).(d_confidence);
       row_started_at := run.(started_at);
       row_finished_at := run.(finished_at) |} in
  {| messages := db.(messages);
     memory_items := db.(memory_items);
     agent_runs :=
       List.filter (fun r => negb (String.eqb r.(row_id) run.(run_id)))
         db.(agent_runs) ++ [row];
     agent_definitions := db.(agent_definitions);
     events := db.(events) |}.

(** [col or 0.0] on a nullable REAL column. *)
Definition real_or_zero (col : option Py.float) : Py.float :=
  match col with
  | None => 0%Q
  | Some x => Py.float_or x 0%Q
  end.

Definition run_of_row (r : RunRow) : AgentRun :=
  {| run_id := r.(row_id);
     run_agent_name := r.(row_agent_name);
     run_input_payload := r.(row_input_json);
     output_payload := r.(row_output_json);
     run_status := r.(row_status);
     emotion_delta :=
       {| d_curiosity := real_or_zero r.(row_curiosity);
          d_fatigue := real_or_zero r.(row_fatigue);
          d_frustration := real_or_zero r.(row_frustration);
          d_confidence := real_or_zero r.(row_confidence);
          d_mood := 0%Q; d_energy := 0%Q; d_playfulness := 0%Q;
          d_social_need := 0%Q; d_learning_drive := 0%Q |};
     started_at := r.(row_started_at);
     finished_at := r.(row_finished_at) |}.

Definition get_recent_agent_runs (db : Db) (limit : Z) : list AgentRun :=
  rev (map run_of_row
         (limit_rows limit (order_by_desc row_started_at db.(agent_runs)))).

(** *** agent_definitions *)

Definition with_definitions (db : Db) (defs : list DefRow) : Db :=
  {| messages := db.(messages);
     memory_items := db.(memory_items);
     agent_runs := db.(agent_runs);
     agent_definitions := defs;
     events := db.(events) |}.

(** The tuple of values bound to the INSERT. [now] stands for the
    [datetime.utcnow()] default of [created_at]. *)
Definition excluded_row (now : Z) (d : AgentDefinition) : DefRow :=
  {| def_id := d.(ad_id);
     def_name := d.(ad_name);
     def_description :=
       match d.(ad_description) with Some s => s | None => "" end;
     def_config_json :=
       match d.(ad_config) with Some c => c | None => [] end;
     def_created_at :=
       match d.(ad_created_at) with Some t => t | None => now end;
     def_is_active :=
       match d.(ad_is_active) with Some true => 1 | _ => 0 end;
     def_parent_id := d.(ad_parent_id);
     def_lifecycle_state :=
       match d.(ad_lifecycle_state) with
       | Some "" | None => "draft"
       | Some s => s
       end |}.

(** The SET list of [ON CONFLICT(id) DO UPDATE]. *)
Definition do_update (old excluded : DefRow) : DefRow :=
  {| def_id := old.(def_id);
     def_name := excluded.(def_name);
     def_description := excluded.(def_description);
     def_config_json := excluded.(def_config_json);
     def_created_at := old.(def_created_at);
     def_is_active := excluded.(def_is_active);
     def_parent_id := excluded.(def_parent_id);
     def_lifecycle_state := excluded.(def_lifecycle_state) |}.

(** Does a row other than the one with id [self] already carry [name]?
    ([name TEXT NOT NULL UNIQUE]) *)
Definition name_taken (defs : list DefRow) (self name : string) : bool :=
  existsb (fun r => negb (String.eqb r.(def_id) self)
                    && String.eqb r.(def_name) name) defs.

Definition has_id (defs : list DefRow) (i : string) : bool :=
  existsb (fun r => String.eqb r.(def_id) i) defs.

Definition save_agent_definition (db : Db) (now : Z) (d : AgentDefinition)
  : Py.Result Db :=
  let excluded := excluded_row now d in
  let defs := db.(agent_definitions) in
  if name_taken defs excluded.(def_id) excluded.(def_name) then
    Py.raise (Py.IntegrityError "UNIQUE constraint failed: agent_definitions.name")
  else if has_id defs excluded.(def_id) then
    Py.ret (with_definitions db
              (map (fun r => if String.eqb r.(def_id) excluded.(def_id)
                             then do_update r excluded else r) defs))
  else
    Py.ret (with_definitions db (defs ++ [excluded])).

Definition definition_of_row (r : DefRow) : AgentDefinition :=
  {| ad_id := r.(def_id);
     ad_name := r.(def_name);
     ad_description := Some r.(def_description);
     ad_config := Some r.(def_config_json);
     ad_created_at := Some r.(def_created_at);
     ad_is_active := Some (negb (r.(def_is_active) =? 0));
     ad_parent_id := r.(def_parent_id);
     ad_lifecycle_state :=
       Some (match r.(def_lifecycle_state) with
             | "" => "draft"
             | s => s
             end);
     ad_security_flags := None |}.

Definition list_agent_definitions (db : Db) : list AgentDefinition :=
  map definition_of_row (order_by_asc def_created_at db.(agent_definitions)).

(** The stored row with a given id. *)
Definition stored_definition (db : Db) (i : string) : option DefRow :=
  List.find (fun r => String.eqb r.(def_id) i) db.(agent_definitions).

(** *** messages and events *)

Definition log_message (db : Db) (m : Message) : Db :=
  {| messages := db.(messages) ++ [m];
     memory_items := db.(memory_items);
     agent_runs := db.(agent_runs);
     agent_definitions := db.(agent_definitions);
     events := db.(events) |}.

(** [get_recent_messages]: [ORDER BY id DESC LIMIT ?], then reversed.  The
    AUTOINCREMENT id grows with every insertion, so descending id is the
    table read backwards. *)
Definition get_recent_messages (db : Db) (limit : Z) : list Message :=
  rev (limit_rows limit (rev db.(messages))).

Definition log_event (db : Db) (type_ : EventType)
    (correlation_id : string) (payload : EventPayload) : Db :=
  {| messages := db.(messages);
     memory_items := db.(memory_items);
     agent_runs := db.(agent_runs);
     agent_definitions := db.(agent_definitions);
     events := db.(events)
               ++ [{| ev_type := type_; ev_correlation_id := correlation_id;
                      ev_payload := payload |}] |}.

End Memory.

(** ** core/agents_base.py *)

Module AgentsBase.
Import Models Memory.

Record ConversationContext := {
  ctx_id : string;
  ctx_user_id : string;
  ctx_messages : list Message;
  ctx_plan : option Plan;
  ctx_emotional_state : EmotionalState;
  ctx_correlation_id : option string
}.

Record AgentResult := {
  res_output_payload : Payload;
  res_emotion_delta : EmotionDelta;
  res_status : AgentRunStatus
}.

(** An agent: its [name] and its [_run_impl], which reads the payload,
    the context and the store, may write to the store, and either returns
    an [AgentResult] or raises. *)
Record Agent := {
  name : string;
  _run_impl : Dict -> ConversationContext -> Db
              -> Py.Result AgentResult * Db
}.

(** [EmotionDelta(frustration=0.1, confidence=-0.05)] *)
Definition failure_delta : EmotionDelta :=
  {| d_curiosity := 0; d_fatigue := 0; d_frustration := 0.1;
     d_confidence := -0.05; d_mood := 0; d_energy := 0;
     d_playfulness := 0; d_social_need := 0; d_learning_drive := 0 |}%Q.

(** [Agent.run]: the bulkhead around [_run_impl].  [new_id] and [now] are
    the uuid4 and the clock reading that the [AgentRun] receives. *)
Definition run (self : Agent) (new_id : string) (now : Z)
    (input_payload : Dict) (context : ConversationContext) (memory : Db)
  : AgentRun * Db :=
  match self.(_run_impl) input_payload context memory with
  | (inr result, memory') =>
      ({| run_id := new_id;
          run_agent_name := self.(name);
          run_input_payload := input_payload;
          output_payload := result.(res_output_payload);
          run_status := result.(res_status);
          emotion_delta := result.(res_emotion_delta);
          started_at := now; finished_at := now |}, memory')
  | (inl exc, memory') =>
      ({| run_id := new_id;
          run_agent_name := self.(name);
          run_input_payload := input_payload;
          output_payload :=
            {| user_visible_message := None; stop_for_user_input := None;
               error := Some (Py.str_exn exc) |};
          run_status := FAILURE;
          emotion_delta := failure_delta;
          started_at := now; finished_at := now |}, memory')
  end.

(** [AgentRegistry]: [self._agents]. *)
Abbreviation AgentRegistry := (gmap string Agent).

Definition register (self : AgentRegistry) (agent : Agent)
  : Py.Result AgentRegistry :=
  match self !! agent.(name) with
  | Some _ => Py.raise (Py.ValueError ("Agent '" ++ agent.(name) ++ "' già registrato"))
  | None => Py.ret (<[agent.(name) := agent]> self)
  end.

Definition get (self : AgentRegistry) (name : string) : Py.Result Agent :=
  match self !! name with
  | None => Py.raise (Py.KeyError ("Agent '" ++ name ++ "' non trovato"))
  | Some agent => Py.ret agent
  end.

End AgentsBase.

(** ** core/orchestrator.py *)

Module Orchestrator.
Import Models Memory AgentsBase.

(** The collaborators and the configuration held by an [Orchestrator].
    [build_plan] is [Router.build_plan]: it reads the context and the
    store, may write to the store, and returns a plan or [None].
    [uuid4] and [utcnow] give the value of the n-th draw of an id and the
    n-th reading of the clock within a turn. *)
Record Orchestrator := {
  registry : AgentRegistry;
  build_plan : ConversationContext -> Db -> option Plan * Db;
  max_tasks_per_turn : Z;
  uuid4 : nat -> string;
  utcnow : nat -> Z
}.

(** What a turn reads and writes. *)
Record Turn := {
  turn_context : ConversationContext;
  turn_memory : Db;
  draws : nat
}.

Definition add_message (c : ConversationContext) (role : MessageRole)
    (content : string) : ConversationContext :=
  {| ctx_id := c.(ctx_id); ctx_user_id := c.(ctx_user_id);
     ctx_messages := c.(ctx_messages)
                     ++ [{| msg_role := role; msg_content := content |}];
     ctx_plan := c.(ctx_plan);
     ctx_emotional_state := c.(ctx_emotional_state);
     ctx_correlation_id := c.(ctx_correlation_id) |}.

Definition set_plan (c : ConversationContext) (p : option Plan)
  : ConversationContext :=
  {| ctx_id := c.(ctx_id); ctx_user_id := c.(ctx_user_id);
     ctx_messages := c.(ctx_messages); ctx_plan := p;
     ctx_emotional_state := c.(ctx_emotional_state);
     ctx_correlation_id := c.(ctx_correlation_id) |}.

Definition set_emotional_state (c : ConversationContext)
    (e : EmotionalState) : ConversationContext :=
  {| ctx_id := c.(ctx_id); ctx_user_id := c.(ctx_user_id);
     ctx_messages := c.(ctx_messages); ctx_plan := c.(ctx_plan);
     ctx_emotional_state := e;
     ctx_correlation_id := c.(ctx_correlation_id) |}.

(** The task object is shared between the plan and the dispatch loop:
    an assignment to it is an update of the plan at its position. *)
Definition set_task (p : Plan) (i : nat) (t : Task) : Plan :=
  {| plan_id := p.(plan_id); tasks := <[i := t]> p.(tasks);
     governance_mode_meta := p.(governance_mode_meta) |}.

Definition set_task_in (c : ConversationContext) (i : nat) (t : Task)
  : ConversationContext :=
  set_plan c (option_map (fun p => set_task p i t) c.(ctx_plan)).

(** [getattr(context, "correlation_id", None) or context.id] *)
Definition correlation_of (c : ConversationContext) : string :=
  match c.(ctx_correlation_id) with
  | Some "" | None => c.(ctx_id)
  | Some s => s
  end.

(** [d.get(key, default) or ""] and [d.get("error", default)] *)
Definition visible_message (p : Payload) : string :=
  match p.(user_visible_message) with Some s => s | None => "" end.

Definition error_text (p : Payload) : string :=
  match p.(error) with Some s => s | None => "Errore sconosciuto" end.

Definition stop_flag (p : Payload) : bool :=
  match p.(stop_for_user_input) with Some b => b | None => false end.

Definition is_empty (s : string) : bool :=
  match s with "" => true | _ => false end.

(** "aggiorno il Task in base al risultato": done on success, back to
    pending while retries remain, error otherwise. *)
Definition settle_task (task : Task) (run : AgentRun) : Task :=
  match run.(run_status) with
  | SUCCESS => mark_done task run.(output_payload)
  | FAILURE =>
      let err := error_text run.(output_payload) in
      if task.(retry_count) <? task.(max_retries)
      then requeue task err
      else mark_error task err
  end.

(** A failed run without a visible message shows its error. *)
Definition shown_message (agent : Agent) (run : AgentRun)
    (user_msg : string) : string :=
  match run.(run_status) with
  | FAILURE =>
      if is_empty user_msg
      then "[ERRORE nell'agente '" ++ agent.(name) ++ "'] "
           ++ error_text run.(output_payload)
      else user_msg
  | SUCCESS => user_msg
  end.

(** [_execute_task] on the task at position [i] of the plan.  Returns
    [(user_msg, stop_here)] and the state after it, or raises. *)
Definition _execute_task (self : Orchestrator) (st : Turn) (i : nat)
    (task : Task) (correlation_id : string)
  : Py.Result (string * bool * Turn) :=
  try! agent := get self.(registry) task.(agent_name) in
  let task := mark_running task in
  let ctx := set_task_in st.(turn_context) i task in
  let '(run, mem) :=
    AgentsBase.run agent (self.(uuid4) st.(draws))
      (self.(utcnow) st.(draws)) task.(input_payload) ctx st.(turn_memory) in
  let user_msg := visible_message run.(output_payload) in
  let ctx :=
    set_emotional_state ctx
      (Emotion.update_on_agent_run ctx.(ctx_emotional_state) run) in
  let mem := log_agent_run mem run in
  let event_type :=
    match run.(run_status) with
    | SUCCESS => AGENT_RUN_COMPLETED
    | FAILURE => AGENT_RUN_FAILED
    end in
  let mem :=
    log_event mem event_type correlation_id
      (AgentRunLogged task.(id) agent.(name) run.(run_id)
         run.(run_status)) in
  let task := settle_task task run in
  let ctx := set_task_in ctx i task in
  let user_msg := shown_message agent run user_msg in
  let stop_here := stop_flag run.(output_payload) in
  Py.ret (user_msg, stop_here,
          {| turn_context := ctx; turn_memory := mem;
             draws := S st.(draws) |}).

(** The [while] loop of [handle_user_message]; [budget] counts the
    iterations that [tasks_executed < max_tasks_per_turn] still allows. *)
Fixpoint dispatch (self : Orchestrator) (budget : nat)
    (correlation_id : string) (st : Turn) (user_visible_response : string)
  : Py.Result (string * Turn) :=
  match budget with
  | O => Py.ret (user_visible_response, st)
  | S budget' =>
      match st.(turn_context).(ctx_plan) with
      | None => Py.ret (user_visible_response, st)
      | Some plan =>
          match get_next_index plan with
          | None => Py.ret (user_visible_response, st)
          | Some i =>
              match plan.(tasks) !! i with
              | None => Py.ret (user_visible_response, st)
              | Some next_task =>
                  let mem :=
                    log_event st.(turn_memory) TASK_ASSIGNED correlation_id
                      (TaskAssigned plan.(plan_id) next_task.(id)
                         next_task.(agent_name)
                         next_task.(description)) in
                  let st :=
                    {| turn_context := st.(turn_context);
                       turn_memory := mem; draws := st.(draws) |} in
                  try! r := _execute_task self st i next_task
                              correlation_id in
                  let '(response_chunk, stop_here, st) := r in
                  let user_visible_response :=
                    if is_empty response_chunk then user_visible_response
                    else (if is_empty user_visible_response
                          then user_visible_response
                          else user_visible_response ++ Py.nl ++ Py.nl)
                         ++ response_chunk in
                  if stop_here then Py.ret (user_visible_response, st)
                  else dispatch self budget' correlation_id st
                         user_visible_response
              end
          end
      end
  end.

Definition dump_task (t : Task) : TaskDump :=
  {| dump_id := t.(id); dump_agent_name := t.(agent_name);
     dump_description := t.(description);
     dump_depends_on := t.(depends_on);
     dump_max_retries := t.(max_retries) |}.

Definition no_plan_fallback : string :=
  "Per ora non sono riuscito a costruire un piano di azione "
  ++ "per questa richiesta. Possiamo provare a riformulare?".

Definition no_output_fallback : string :=
  "Ho elaborato la tua richiesta, ma nessun agente ha prodotto "
  ++ "un messaggio visibile. (Possibile errore interno, controlla la console.)".

(** The turn up to the answer of the router: decay, the user message and
    its log entry, REQUEST_RECEIVED, and [router.build_plan]. *)
Definition open_turn (self : Orchestrator)
    (context : ConversationContext) (memory : Db) (text : string)
  : option Plan * ConversationContext * Db :=
  let correlation_id := correlation_of context in
  let context :=
    set_emotional_state context
      (Emotion.apply_decay_between_turns context.(ctx_emotional_state)) in
  let context := add_message context ROLE_USER text in
  let memory :=
    log_message memory {| msg_role := ROLE_USER; msg_content := text |} in
  let memory :=
    log_event memory REQUEST_RECEIVED correlation_id
      (RequestReceived context.(ctx_id) text) in
  let '(plan, memory) := self.(build_plan) context memory in
  (plan, set_plan context plan, memory).

(** The state in which the dispatch loop starts on the plan [p]. *)
Definition planned (context : ConversationContext) (memory : Db)
    (p : Plan) : Turn :=
  {| turn_context := context;
     turn_memory :=
       log_event memory PLAN_CREATED (correlation_of context)
         (PlanCreated context.(ctx_id) (Some p.(plan_id))
            (length p.(tasks)) (map dump_task p.(tasks)) None);
     draws := 0 |}.

(** [handle_user_message]: the reply and the state after the turn, or the
    exception that reaches the caller. *)
Definition handle_user_message (self : Orchestrator)
    (context : ConversationContext) (memory : Db) (text : string)
  : Py.Result (string * Turn) :=
  let correlation_id := correlation_of context in
  let '(plan, context, memory) := open_turn self context memory text in
  match plan with
  | None =>
      let memory :=
        log_event memory PLAN_CREATED correlation_id
          (PlanCreated context.(ctx_id) None 0 []
             (Some "router.build_plan returned None")) in
      let context := add_message context ROLE_ASSISTANT no_plan_fallback in
      let memory :=
        log_message memory
          {| msg_role := ROLE_ASSISTANT;
             msg_content := no_plan_fallback |} in
      Py.ret (no_plan_fallback,
              {| turn_context := context; turn_memory := memory;
                 draws := 0 |})
  | Some p =>
      try! r := dispatch self (Z.to_nat self.(max_tasks_per_turn))
                  correlation_id (planned context memory p) "" in
      let '(user_visible_response, st) := r in
      let user_visible_response :=
        if is_empty user_visible_response then no_output_fallback
        else user_visible_response in
      let context :=
        add_message st.(turn_context) ROLE_ASSISTANT
          user_visible_response in
      let memory :=
        log_message st.(turn_memory)
          {| msg_role := ROLE_ASSISTANT;
             msg_content := user_visible_response |} in
      Py.ret (user_visible_response,
              {| turn_context := context; turn_memory := memory;
                 draws := st.(draws) |})
  end.

End Orchestrator.

(** ** agents/security_review_agent.py *)

Module SecurityReview.
Import Models Memory AgentsBase.

Definition DANGEROUS_KEYWORDS : list string :=
  [ "rm -rf";
    "drop table";
    "format c:";
    "shutdown";
    "kill -9";
    "exec(";
    "eval(";
    "subprocess.Popen";
    "os.system(" ].

(** The two keys of [input_payload] that the agent reads. *)
Record Input := {
  target_id : option string;
  scan_all : bool
}.

Record Alert := {
  alert_agent : string;
  alert_agent_id : string;
  alert_hits : list string;
  alert_ts : Z
}.

(** The verdict written under [security_review_last]. *)
Record Review := {
  review_agent_name : string;
  review_security_ok : bool;
  review_hits : list string
}.

Definition truthy (s : option string) : bool :=
  match s with Some "" | None => false | Some _ => true end.

Definition candidates_of (defs : list AgentDefinition) (inp : Input)
  : list AgentDefinition :=
  if truthy inp.(target_id) then
    match inp.(target_id) with
    | Some tid =>
        match List.find (fun d => String.eqb d.(ad_id) tid) defs with
        | Some d => [d]
        | None => []
        end
    | None => []
    end
  else if inp.(scan_all) then defs
  else match List.last (map Some defs) None with
       | Some d => [d]
       | None => []
       end.

(** [text_blobs]: the name, the description, and the config values that
    are strings, in the order of the dict. *)
Definition config_strings (cfg : Config) : list string :=
  flat_map (fun kv => match snd kv with CStr v => [v] | COther _ => [] end)
    cfg.

Definition text_blobs (candidate : AgentDefinition) : list string :=
  let desc :=
    match candidate.(ad_description) with Some d => d | None => "" end in
  let cfg :=
    match candidate.(ad_config) with Some c => c | None => [] end in
  ([candidate.(ad_name); desc] ++ config_strings cfg)%list.

Definition full_text (candidate : AgentDefinition) : string :=
  Py.lower (Py.join Py.nl (text_blobs candidate)).

(** [hits = [kw for kw in DANGEROUS_KEYWORDS if kw in full_text]] *)
Definition hits_of (candidate : AgentDefinition) : list string :=
  List.filter (fun kw => Py.contains (full_text candidate) kw)
    DANGEROUS_KEYWORDS.

(** The assignments made to the candidate dict on a hit. *)
Definition block (candidate : AgentDefinition) (hits : list string)
  : AgentDefinition :=
  {| ad_id := candidate.(ad_id);
     ad_name := candidate.(ad_name);
     ad_description := candidate.(ad_description);
     ad_config := candidate.(ad_config);
     ad_created_at := candidate.(ad_created_at);
     ad_is_active := Some false;
     ad_parent_id := candidate.(ad_parent_id);
     ad_lifecycle_state := Some "draft";
     ad_security_flags := Some hits |}.

Section Run.
(** [json.dumps] of the two dicts the agent stores, the ids drawn and
    the clock readings. *)
Variable dumps_alert : Alert -> string.
Variable dumps_review : Review -> string.
Variable uuid4 : nat -> string.
Variable utcnow : nat -> Z.

(** The state of the loop over the candidates. *)
Record Loop := {
  loop_memory : Db;
  loop_draws : nat;
  loop_alerts : list Alert;
  loop_checked : list string;
  loop_candidates : list AgentDefinition
}.

(** One iteration.  The failure of a write is swallowed by its [try]. *)
Definition review_candidate (st : Loop) (candidate : AgentDefinition)
  : Loop :=
  let name := candidate.(ad_name) in
  let hits := hits_of candidate in
  let n := st.(loop_draws) in
  let checked := (st.(loop_checked) ++ [name])%list in
  match hits with
  | _ :: _ =>
      let candidate := block candidate hits in
      let mem :=
        match save_agent_definition st.(loop_memory) (utcnow n)
                candidate with
        | inr mem' => mem'
        | inl _ => st.(loop_memory)
        end in
      let alert :=
        {| alert_agent := name; alert_agent_id := candidate.(ad_id);
           alert_hits := hits; alert_ts := utcnow (n + 1) |} in
      let mem :=
        snd (store_item mem (uuid4 (n + 2)) (utcnow (n + 2)) GLOBAL
               PROCEDURAL "security_alert" (dumps_alert alert) None) in
      let mem :=
        snd (store_item mem (uuid4 (n + 3)) (utcnow (n + 3))
               CONVERSATION PROCEDURAL "security_review_last"
               (dumps_review
                  {| review_agent_name := name;
                     review_security_ok := false;
                     review_hits := hits |}) None) in
      {| loop_memory := mem; loop_draws := n + 4;
         loop_alerts := st.(loop_alerts) ++ [alert];
         loop_checked := checked;
         loop_candidates := st.(loop_candidates) ++ [candidate] |}
  | [] =>
      let mem :=
        snd (store_item st.(loop_memory) (uuid4 n) (utcnow n)
               CONVERSATION PROCEDURAL "security_review_last"
               (dumps_review
                  {| review_agent_name := name;
                     review_security_ok := true;
                     review_hits := [] |}) None) in
      {| loop_memory := mem; loop_draws := n + 1;
         loop_alerts := st.(loop_alerts);
         loop_checked := checked;
         loop_candidates := st.(loop_candidates) ++ [candidate] |}
  end.

Definition review_all (memory : Db) (candidates : list AgentDefinition)
  : Loop :=
  fold_left review_candidate candidates
    {| loop_memory := memory; loop_draws := 0; loop_alerts := [];
       loop_checked := []; loop_candidates := [] |}.

Definition alert_line (al : Alert) : string :=
  "- " ++ al.(alert_agent) ++ " (id=" ++ al.(alert_agent_id)
  ++ ") → pattern: " ++ Py.join ", " al.(alert_hits).

Definition summary (checked : list string) (alerts : list Alert)
  : string :=
  match alerts with
  | [] =>
      "SecurityReview: ho controllato " ++ pretty (length checked)
      ++ " agent, nessun rischio evidente trovato."
  | _ =>
      let head :=
        "SecurityReview: ho controllato " ++ pretty (length checked)
        ++ " agent; " ++ pretty (length alerts)
        ++ " contengono pattern potenzialmente pericolosi." in
      Py.join Py.nl
        (head :: "" :: "Agenti bloccati:" :: map alert_line alerts)
  end.

Definition repr (s : option string) : string :=
  match s with None => "None" | Some v => "'" ++ v ++ "'" end.

Definition message (text : string) : Payload :=
  {| user_visible_message := Some text;
     stop_for_user_input := Some false; error := None |}.

Definition with_delta (confidence frustration : Py.float)
  : EmotionDelta :=
  {| d_curiosity := 0; d_fatigue := 0; d_frustration := frustration;
     d_confidence := confidence; d_mood := 0; d_energy := 0;
     d_playfulness := 0; d_social_need := 0;
     d_learning_drive := 0 |}%Q.

(** [_run_impl]: the result, the store after it, and the loop state
    (the candidate dicts as the agent leaves them, the alerts). *)
Definition _run_impl (inp : Input) (memory : Db)
  : AgentResult * Db * option Loop :=
  let defs := list_agent_definitions memory in
  match defs with
  | [] =>
      ({| res_output_payload :=
            message "SecurityReview: nessuna AgentDefinition da controllare.";
          res_emotion_delta := delta0; res_status := SUCCESS |},
       memory, None)
  | _ =>
      match candidates_of defs inp with
      | [] =>
          ({| res_output_payload :=
                message
                  ("SecurityReview: nessuna AgentDefinition compatibile trovata "
                   ++ "(target_id=" ++ repr inp.(target_id) ++ ").");
              res_emotion_delta := delta0; res_status := SUCCESS |},
           memory, None)
      | candidates =>
          let st := review_all memory candidates in
          let quiet :=
            match st.(loop_alerts) with [] => true | _ => false end in
          ({| res_output_payload :=
                message (summary st.(loop_checked) st.(loop_alerts));
              res_emotion_delta :=
                with_delta (if quiet then 0.02 else -0.02)%Q
                           (if quiet then 0 else 0.02)%Q;
              res_status := SUCCESS |},
           st.(loop_memory), Some st)
      end
  end.

End Run.

End SecurityReview.

(** ** agents/meta_router_agent.py *)

Module MetaRouter.
Import Models Memory AgentsBase.

(** The keys of [input_payload] that the planner reads; [None] is an
    absent key. *)
Record Input := {
  max_steps : option Z;
  force_governance : option bool;
  governance_target_agent : option string
}.

(** An entry of the map built by [get_agent_metrics_from_diagnostics]:
    a key is present when the diagnostics listed the agent under it. *)
Record Metrics := {
  failure_rate : option Py.float;
  total_runs : option Z;
  avg_duration : option Py.float
}.

Definition gov_keywords : list string :=
  [ "nuovo agent";
    "nuovo agente";
    "crea un agent";
    "crea un agente";
    "migliora l'agent";
    "migliora l'agente";
    "refactor";
    "rifattorizza";
    "rifattorizzare";
    "migliora il codice";
    "ottimizza il sistema";
    "governance";
    "architettura";
    "auto-miglioramento";
    "self improvement";
    "self-improvement" ].

(** [float(m.get("failure_rate", 0.0))] and [int(m.get("total_runs", 0))] *)
Definition failure_rate_of (m : Metrics) : Py.float :=
  match m.(failure_rate) with Some f => f | None => 0%Q end.

Definition total_runs_of (m : Metrics) : Z :=
  match m.(total_runs) with Some n => n | None => 0 end.

(** The condition of step (3) on one entry. *)
Definition is_bad (m : Metrics) : bool :=
  (5 <=? total_runs_of m) && Qle_bool 0.6 (failure_rate_of m).

Definition bad_candidates (metrics : list (string * Metrics))
  : list string :=
  map fst (List.filter (fun kv => is_bad (snd kv)) metrics).

Definition flag (b : option bool) : bool :=
  match b with Some true => true | _ => false end.

Definition _detect_governance_intent (user_last : string) (inp : Input)
    (metrics : list (string * Metrics)) (emotional_state : EmotionalState)
  : bool * string * list string :=
  let text := Py.lower user_last in
  if flag inp.(force_governance) then
    let targets :=
      match inp.(governance_target_agent) with
      | Some "" | None => []
      | Some target => [target]
      end in
    (true, "force_governance_flag", targets)
  else if existsb (fun kw => Py.contains text kw) gov_keywords then
    (true, "explicit_user_governance_request", [])
  else
    match bad_candidates metrics with
    | [] => (false, "", [])
    | bad =>
        if Qlt_le_dec emotional_state.(frustration) 0.4
        then (false, "", [])
        else (true, "high_failure_rate_agents", bad)
    end.

(** The [input] dicts of the six governance steps. *)
Inductive StepInput :=
| Targets (targets : list string)
| Scan (scan_all : bool) (target_id : option string)
| Critic (target_agent : option string) (lookback_runs max_examples : Z)
| NoInput
| Codegen (overwrite_existing dry_run : bool).

Record Step := {
  step_id : option string;
  step_agent : string;
  step_description : string;
  step_input : StepInput;
  step_depends_on : list string;
  step_max_retries : Z
}.

(** The closure [add_step] of [_build_governance_plan]. *)
Definition add_step (max_steps : Z) (plan : list Step) (agent : string)
    (description : string) (input_payload : StepInput) : list Step :=
  if max_steps <=? Z.of_nat (length plan) then plan
  else plan ++ [{| step_id := None; step_agent := agent;
                   step_description := description;
                   step_input := input_payload;
                   step_depends_on := []; step_max_retries := 0 |}].

Definition governance_notes : string :=
  "Piano di governance automatica basato su metriche, sicurezza e/o richiesta esplicita.".

Definition _build_governance_plan (targets : list string) (max_steps : Z)
  : list Step * string :=
  let plan := [] in
  let plan :=
    add_step max_steps plan "architect_agent"
      "Definisce o aggiorna la configurazione degli agent candidati alla governance."
      (Targets targets) in
  let plan :=
    add_step max_steps plan "security_review_agent"
      "Esegue un controllo di sicurezza sui nuovi/aggiornati agent."
      (Scan false None) in
  let plan :=
    add_step max_steps plan "validator_agent"
      "Verifica la correttezza tecnica delle definizioni di agent."
      (Targets targets) in
  let plan :=
    add_step max_steps plan "critic_agent"
      "Valuta la qualità degli agent candidati e suggerisce promozioni/deprecazioni."
      (Critic None 80 15) in
  let plan :=
    add_step max_steps plan "curator_agent"
      "Applica le decisioni di governance (promozioni, deprecazioni) in base a critic/sicurezza/diagnostica."
      NoInput in
  let plan :=
    add_step max_steps plan "codegen_agent"
      "Genera o aggiorna il codice sorgente per le AgentDefinition approvate."
      (Codegen false false) in
  (plan, governance_notes).

(** The fixed pipeline, by agent name. *)
Definition pipeline : list string :=
  [ "architect_agent"; "security_review_agent"; "validator_agent";
    "critic_agent"; "curator_agent"; "codegen_agent" ].

(** [max(1, min(int(input_payload.get("max_steps", 8)), 20))] *)
Definition clamp_steps (inp : Input) : Z :=
  Z.max 1 (Z.min (match inp.(max_steps) with Some n => n | None => 8 end)
             20).

(** The output of the governance branch of [_run_impl]. *)
Record Output := {
  out_meta_plan : list Step;
  out_notes : string;
  out_plan_id : string;
  out_governance_mode : bool;
  out_governance_reason : string;
  out_governance_targets : list string
}.

(** [list({t for t in ... if t})]: the non-empty names, once each. *)
Fixpoint dedup (l : list string) : list string :=
  match l with
  | [] => []
  | x :: l' =>
      if existsb (String.eqb x) l' then dedup l' else x :: dedup l'
  end.

Definition non_empty (s : string) : bool :=
  match s with "" => false | _ => true end.

(** The enrichment loop, [enumerate(plan_list, start=1)]. *)
Fixpoint enrich (internal_plan_id : string) (idx : nat)
    (plan_list : list Step) : list Step :=
  match plan_list with
  | [] => []
  | step :: rest =>
      if non_empty step.(step_agent) then
        {| step_id :=
             Some (match step.(step_id) with
                   | Some "" | None =>
                       internal_plan_id ++ "_step_" ++ pretty idx
                   | Some i => i
                   end);
           step_agent := step.(step_agent);
           step_description :=
             (if non_empty step.(step_description)
              then step.(step_description)
              else "Step eseguito da " ++ step.(step_agent));
           step_input := step.(step_input);
           step_depends_on := step.(step_depends_on);
           step_max_retries := step.(step_max_retries) |}
        :: enrich internal_plan_id (S idx) rest
      else enrich internal_plan_id (S idx) rest
  end.

(** [_run_impl] up to the end of its governance branch (3.1): [Some] is
    the output returned there, [None] means that planning goes on to the
    intake gate and the model-assisted planner.  [metrics] is what
    [memory.get_agent_metrics_from_diagnostics()] returned,
    [security_targets] what [_get_security_targets(memory)] returned and
    [internal_plan_id] the id drawn for the plan. *)
Definition _run_impl_governance (inp : Input) (user_last : string)
    (metrics : list (string * Metrics)) (security_targets : list string)
    (emotional_state : EmotionalState) (internal_plan_id : string)
  : option Output :=
  let max_steps := clamp_steps inp in
  let '(governance_mode, governance_reason, gov_targets_from_metrics) :=
    _detect_governance_intent user_last inp metrics emotional_state in
  let governance_targets :=
    dedup (List.filter non_empty
             (gov_targets_from_metrics ++ security_targets)%list) in
  if governance_mode then
    let '(plan_list, gov_notes) :=
      _build_governance_plan governance_targets max_steps in
    let plan_list :=
      if max_steps <? Z.of_nat (length plan_list)
      then firstn (Z.to_nat max_steps) plan_list
      else plan_list in
    Some {| out_meta_plan := enrich internal_plan_id 1 plan_list;
            out_notes := gov_notes;
            out_plan_id := internal_plan_id;
            out_governance_mode := true;
            out_governance_reason := governance_reason;
            out_governance_targets := governance_targets |}
  else None.

End MetaRouter.

(** ** Conditions under which the turn is studied *)

Module Conditions.
Import Models Memory AgentsBase.




(** The agent appends nothing to the event log itself. *)
Definition logs_no_event (a : Agent) : Prop :=
  forall inp ctx mem,
    (snd (a.(_run_impl) inp ctx mem)).(events) = mem.(events).


(** The task at position [i] of the plan of a turn. *)
Definition task_at (st : Orchestrator.Turn) (i : nat) : option Task :=
  match st.(Orchestrator.turn_context).(ctx_plan) with
  | Some p => p.(tasks) !! i
  | None => None
  end.



End Conditions.

(** ** Concrete inputs used by the examples below *)

Module Scenarios.
Import Models Memory AgentsBase.

Definition task (i agent : string) (s : TaskStatus) (deps : list string)
    (retries : Z) : Task :=
  {| id := i; description := "step " ++ i; agent_name := agent;
     input_payload := []; status := s; result := None;
     task_error := None; depends_on := deps; max_retries := retries;
     retry_count := 0 |}.

Definition plan_of (ts : list Task) : Plan :=
  {| plan_id := "plan-1"; tasks := ts; governance_mode_meta := false |}.

Definition run_of (agent : string) (s : AgentRunStatus) : AgentRun :=
  {| run_id := "run-1"; run_agent_name := agent; run_input_payload := [];
     output_payload := empty_payload; run_status := s;
     emotion_delta := delta0; started_at := 0; finished_at := 0 |}.

Definition conversation : ConversationContext :=
  {| ctx_id := "conv-1"; ctx_user_id := "user-1"; ctx_messages := [];
     ctx_plan := None; ctx_emotional_state := state0;
     ctx_correlation_id := None |}.

(** An agent whose [_run_impl] returns a fixed result. *)
Definition constant_agent (n : string) (p : Payload) (s : AgentRunStatus)
  : Agent :=
  {| name := n;
     _run_impl := fun _ _ memory =>
       (inr {| res_output_payload := p; res_emotion_delta := delta0;
               res_status := s |}, memory) |}.

(** An agent whose [_run_impl] raises. *)
Definition raising_agent (n : string) : Agent :=
  {| name := n;
     _run_impl := fun _ _ memory => (inl (Py.Exception "boom"), memory) |}.

Definition say (text : string) : Payload :=
  {| user_visible_message := Some text; stop_for_user_input := None;
     error := None |}.

Definition registry_of (agents : list Agent) : AgentRegistry :=
  list_to_map (map (fun a => (a.(name), a)) agents).

(** An orchestrator whose router always answers with the plan [p]. *)
Definition orchestrator_with (agents : list Agent) (p : option Plan)
    (budget : Z) : Orchestrator.Orchestrator :=
  {| Orchestrator.registry := registry_of agents;
     Orchestrator.build_plan := fun _ memory => (p, memory);
     Orchestrator.max_tasks_per_turn := budget;
     Orchestrator.uuid4 := fun n => "id-" ++ pretty n;
     Orchestrator.utcnow := fun n => Z.of_nat n |}.

(** The events of a turn, as (type, task id) pairs. *)
Definition event_task (e : Event) : option string :=
  match e.(ev_payload) with
  | TaskAssigned _ t _ _ => Some t
  | AgentRunLogged t _ _ _ => Some t
  | _ => None
  end.

Definition trace (r : Py.Result (string * Orchestrator.Turn))
  : list (EventType * option string) :=
  match r with
  | inr (_, st) =>
      map (fun e => (e.(ev_type), event_task e))
        st.(Orchestrator.turn_memory).(events)
  | inl _ => []
  end.


(** Task "a" fails for good; task "b" depends on it. *)
Definition stranded_plan : Plan :=
  plan_of [task "a" "x" ERROR [] 0; task "b" "y" PENDING ["a"] 0].

Definition stranded_turn : Py.Result (string * Orchestrator.Turn) :=
  Orchestrator.handle_user_message
    (orchestrator_with
       [raising_agent "x"; constant_agent "y" (say "fatto") SUCCESS]
       (Some (plan_of [task "a" "x" PENDING [] 0;
                       task "b" "y" PENDING ["a"] 0]))
       10)
    conversation empty_db "ciao".

(** An agent that fails and asks to stop for user input. *)
Definition stopping_agent : Agent :=
  constant_agent "x"
    {| user_visible_message := None; stop_for_user_input := Some true;
       error := Some "manca il dataset" |}
    FAILURE.

Definition stopped_turn : Py.Result (string * Orchestrator.Turn) :=
  Orchestrator.handle_user_message
    (orchestrator_with [stopping_agent]
       (Some (plan_of [task "a" "x" PENDING [] 2])) 3)
    conversation empty_db "ciao".


(** The tasks at the end of a turn: id, status, retry count. *)
Definition outcome (r : Py.Result (string * Orchestrator.Turn))
  : list (string * TaskStatus * Z) :=
  match r with
  | inr (_, st) =>
      match st.(Orchestrator.turn_context).(ctx_plan) with
      | Some p =>
          map (fun t => (t.(id), t.(status), t.(retry_count))) p.(tasks)
      | None => []
      end
  | inl _ => []
  end.

(** A store that holds one item under the key "k", stamped 10. *)
Definition old_item : MemoryItem :=
  {| item_id := "m-1"; item_scope := USER; item_type := SEMANTIC;
     item_key := "k"; item_content := "old"; item_metadata := [];
     item_created_at := 10 |}.

(** An item under the same key in another scope. *)
Definition old_item_elsewhere : MemoryItem :=
  {| item_id := "m-3"; item_scope := PROJECT; item_type := SEMANTIC;
     item_key := "k"; item_content := "other"; item_metadata := [];
     item_created_at := 12 |}.

Definition db_with_item : Db :=
  {| messages := []; memory_items := [old_item]; agent_runs := [];
     agent_definitions := []; events := [] |}.

(** A store that holds the definition "alpha" under the id "a1". *)
Definition alpha_row : DefRow :=
  {| def_id := "a1"; def_name := "alpha"; def_description := "first";
     def_config_json := []; def_created_at := 7; def_is_active := 1;
     def_parent_id := None; def_lifecycle_state := "active" |}.

Definition db_with_alpha : Db :=
  {| messages := []; memory_items := []; agent_runs := [];
     agent_definitions := [alpha_row]; events := [] |}.

(** The same id, another name. *)
Definition renamed : AgentDefinition :=
  {| ad_id := "a1"; ad_name := "beta"; ad_description := Some "second";
     ad_config := None; ad_created_at := Some 99; ad_is_active := None;
     ad_parent_id := None; ad_lifecycle_state := Some "test";
     ad_security_flags := None |}.

(** The store after [renamed] is saved into [db_with_alpha]. *)
Definition db_renamed : Db :=
  match save_agent_definition db_with_alpha 50 renamed with
  | inr db' => db'
  | inl _ => db_with_alpha
  end.

(** A run whose delta sets all nine components. *)
Definition full_delta : EmotionDelta :=
  {| d_curiosity := 0.1; d_fatigue := 0.2; d_frustration := 0.3;
     d_confidence := 0.4; d_mood := 0.5; d_energy := 0.6;
     d_playfulness := 0.7; d_social_need := 0.8;
     d_learning_drive := 0.9 |}%Q.

Definition full_run : AgentRun :=
  {| run_id := "run-9"; run_agent_name := "chat_agent";
     run_input_payload := []; output_payload := empty_payload;
     run_status := SUCCESS; emotion_delta := full_delta;
     started_at := 3; finished_at := 4 |}.

(** An active definition whose description names [subprocess.Popen]. *)
Definition runner_row : DefRow :=
  {| def_id := "d1"; def_name := "runner_agent";
     def_description := "Runs subprocess.Popen(cmd) on the host";
     def_config_json :=
       [("system_prompt_template", CStr "You run shell commands.")];
     def_created_at := 1; def_is_active := 1; def_parent_id := None;
     def_lifecycle_state := "active" |}.

(** An active definition whose prompt holds "rm -rf /". *)
Definition wiper_row : DefRow :=
  {| def_id := "d2"; def_name := "cleanup_agent";
     def_description := "Frees disk space";
     def_config_json :=
       [("system_prompt_template", CStr "Run RM -RF / when asked.");
        ("max_tokens", COther "256")];
     def_created_at := 2; def_is_active := 1; def_parent_id := None;
     def_lifecycle_state := "active" |}.

Definition db_with_definition (r : DefRow) : Db :=
  {| messages := []; memory_items := []; agent_runs := [];
     agent_definitions := [r]; events := [] |}.

(** A security review of every stored definition.  The JSON text of the
    stored dicts is not read here, so [json.dumps] is a constant. *)
Definition security_scan (db : Db) : Db :=
  snd (fst (SecurityReview._run_impl (fun _ => "{}") (fun _ => "{}")
              (fun n => "id-" ++ pretty n) (fun n => 100 + Z.of_nat n)
              {| SecurityReview.target_id := None;
                 SecurityReview.scan_all := true |}
              db)).

(** The store with both definitions, and the state in which the review
    loop starts on it. *)
Definition db_with_two_definitions : Db :=
  {| messages := []; memory_items := []; agent_runs := [];
     agent_definitions := [runner_row; wiper_row]; events := [] |}.

Definition review_start : SecurityReview.Loop :=
  {| SecurityReview.loop_memory := db_with_two_definitions;
     SecurityReview.loop_draws := 0; SecurityReview.loop_alerts := [];
     SecurityReview.loop_checked := [];
     SecurityReview.loop_candidates := [] |}.

(** What a reader of the store sees of a definition: name, is_active,
    lifecycle_state. *)
Definition visible_definitions (db : Db) : list (string * Z * string) :=
  map (fun r => (r.(def_name), r.(def_is_active), r.(def_lifecycle_state)))
    db.(agent_definitions).

Definition security_alerts (db : Db) : list MemoryItem :=
  find_items_by_key db "security_alert" (Some GLOBAL) (Some PROCEDURAL) 50.

(** Diagnostics in which agent "X" failed 8 times out of 10. *)
Definition failing_metrics : list (string * MetaRouter.Metrics) :=
  [ ("X", {| MetaRouter.failure_rate := Some 0.8%Q;
             MetaRouter.total_runs := Some 10;
             MetaRouter.avg_duration := None |}) ].

Definition no_input : MetaRouter.Input :=
  {| MetaRouter.max_steps := None; MetaRouter.force_governance := None;
     MetaRouter.governance_target_agent := None |}.

Definition frustrated : EmotionalState :=
  {| curiosity := 0.5; fatigue := 0; frustration := 0.5;
     confidence := 0.5; mood := 0; energy := 0.6; playfulness := 0.3;
     social_need := 0.4; learning_drive := 0.7 |}%Q.

(** The orchestrator and the starting state of [stranded_turn]'s loop,
    with "a" already in error. *)
Definition two_agents : Orchestrator.Orchestrator :=
  orchestrator_with
    [raising_agent "x"; constant_agent "y" (say "fatto") SUCCESS]
    (Some (plan_of [task "a" "x" PENDING [] 0;
                    task "b" "y" PENDING ["a"] 0]))
    10.

Definition stranded_state : Orchestrator.Turn :=
  Orchestrator.planned
    (Orchestrator.set_plan conversation (Some stranded_plan))
    empty_db stranded_plan.

Definition one_stopper : Orchestrator.Orchestrator :=
  orchestrator_with [stopping_agent]
    (Some (plan_of [task "a" "x" PENDING [] 2])) 3.

End Scenarios.

(** ** Predicates used to state the properties of the code *)

Module Properties.
Import Models Memory AgentsBase.

(** No dependency of [t] that is found in [ts] is pending or running. *)
Definition ready_in (ts : list Task) (t : Task) : Prop :=
  forall d dep, In d t.(depends_on) -> find_task ts d = Some dep ->
                dep.(status) = DONE \/ dep.(status) = ERROR.


(** Rows in descending, resp. ascending, order of a column. *)
Fixpoint descending {A} (col : A -> Z) (l : list A) : Prop :=
  match l with
  | [] => True
  | x :: l' => (forall y, In y l' -> col y <= col x) /\ descending col l'
  end.

Fixpoint ascending {A} (col : A -> Z) (l : list A) : Prop :=
  match l with
  | [] => True
  | x :: l' => (forall y, In y l' -> col x <= col y) /\ ascending col l'
  end.

(** The two uniqueness constraints of [agent_definitions]. *)
Definition valid_definitions (db : Db) : Prop :=
  List.NoDup (map def_id db.(agent_definitions)) /\
  List.NoDup (map def_name db.(agent_definitions)).

(** Every agent of the registry is filed under its own name. *)
Definition well_named (reg : AgentRegistry) : Prop :=
  forall n a, reg !! n = Some a -> a.(name) = n.

(** The run that one pass of the dispatch loop obtains from [agent] for
    the task at position [i], and the state in which that pass leaves the
    turn: TASK_ASSIGNED is logged, then [_execute_task] does its work. *)
Definition pass_run (self : Orchestrator.Orchestrator) (cid : string)
    (st : Orchestrator.Turn) (p : Plan) (i : nat) (task : Task)
    (agent : Agent) : AgentRun * Db :=
  AgentsBase.run agent (self.(Orchestrator.uuid4) st.(Orchestrator.draws))
    (self.(Orchestrator.utcnow) st.(Orchestrator.draws))
    task.(input_payload)
    (Orchestrator.set_task_in st.(Orchestrator.turn_context) i
       (mark_running task))
    (log_event st.(Orchestrator.turn_memory) TASK_ASSIGNED cid
       (TaskAssigned p.(plan_id) task.(id) task.(agent_name)
          task.(description))).

Definition after_pass (self : Orchestrator.Orchestrator) (cid : string)
    (st : Orchestrator.Turn) (p : Plan) (i : nat) (task : Task)
    (agent : Agent) : Orchestrator.Turn :=
  let rm := pass_run self cid st p i task agent in
  let ctx :=
    Orchestrator.set_task_in st.(Orchestrator.turn_context) i
      (mark_running task) in
  {| Orchestrator.turn_context :=
       Orchestrator.set_task_in
         (Orchestrator.set_emotional_state ctx
            (Emotion.update_on_agent_run ctx.(ctx_emotional_state)
               (fst rm)))
         i (Orchestrator.settle_task (mark_running task) (fst rm));
     Orchestrator.turn_memory :=
       log_event (log_agent_run (snd rm) (fst rm))
         (match (fst rm).(run_status) with
          | SUCCESS => AGENT_RUN_COMPLETED
          | FAILURE => AGENT_RUN_FAILED
          end) cid
         (AgentRunLogged task.(id) agent.(name) (fst rm).(run_id)
            (fst rm).(run_status));
     Orchestrator.draws := S st.(Orchestrator.draws) |}.

(** A stretch of the event log made of TASK_ASSIGNED events, each followed
    at once by the AGENT_RUN_COMPLETED or AGENT_RUN_FAILED event of the
    same task. *)
Fixpoint paired (evs : list Event) : Prop :=
  match evs with
  | [] => True
  | assigned :: outcome :: rest =>
      assigned.(ev_type) = TASK_ASSIGNED /\
      (outcome.(ev_type) = AGENT_RUN_COMPLETED
       \/ outcome.(ev_type) = AGENT_RUN_FAILED) /\
      (exists pl t a d a' r ok,
          assigned.(ev_payload) = TaskAssigned pl t a d /\
          outcome.(ev_payload) = AgentRunLogged t a' r ok) /\
      paired rest
  | _ => False
  end.

(** Every result of the agent asks to stop for user input. *)
Definition always_stops (a : Agent) : Prop :=
  forall inp ctx mem,
    exists r, fst (a.(_run_impl) inp ctx mem) = inr r /\
              Orchestrator.stop_flag r.(res_output_payload) = true.





(** The six steps that [_build_governance_plan] appends when nothing
    cuts it short. *)
Definition governance_steps (targets : list string)
  : list MetaRouter.Step :=
  fst (MetaRouter._build_governance_plan targets 6).

(** No agent of the registry writes to the event log itself. *)
Definition quiet_registry (self : Orchestrator.Orchestrator) : Prop :=
  forall n a, self.(Orchestrator.registry) !! n = Some a ->
              Conditions.logs_no_event a.

End Properties.

(** * Theorems *)

Section EmotionFacts.
Import Models Emotion.
Local Open Scope Q_scope.

Lemma clamp01_in01 (x : Py.float) : in01 (_clamp01 x).
Proof.
  unfold in01, _clamp01, Py.max, Py.min.
  repeat destruct Qlt_le_dec; split; lra.
Qed.

Lemma clamp_mood_in (x : Py.float) :
  -1 <= _clamp x (-1) 1 /\ _clamp x (-1) 1 <= 1.
Proof.
  unfold _clamp, Py.max, Py.min.
  repeat destruct Qlt_le_dec; split; lra.
Qed.

Lemma clamp01_proper (x y : Py.float) : x == y -> _clamp01 x == _clamp01 y.
Proof.
  intros E. unfold _clamp01, Py.max, Py.min.
  repeat destruct Qlt_le_dec; lra.
Qed.

Lemma apply_delta_in_ranges (s : EmotionalState) (d : EmotionDelta) :
  in_ranges (apply_delta s d).
Proof.
  unfold in_ranges, apply_delta; cbn [curiosity fatigue frustration
    confidence mood energy playfulness social_need learning_drive].
  repeat split; try apply clamp01_in01; apply clamp_mood_in.
Qed.

Lemma decay_in_ranges (s : EmotionalState) :
  in_ranges s -> in_ranges (apply_decay_between_turns s).
Proof.
  unfold in_ranges, in01, apply_decay_between_turns, Py.min.
  cbn [curiosity fatigue frustration confidence mood energy playfulness
       social_need learning_drive].
  intros H. destruct Qlt_le_dec; repeat split; lra.
Qed.

End EmotionFacts.

Section EmotionClaims.
Import Models Emotion.
Local Open Scope Q_scope.

(** C6.  If the nine components of an emotional state lie in their
    declared ranges (mood in [-1,1], the others in [0,1]), they still do
    after [apply_delta], for every delta, and after
    [apply_decay_between_turns]. *)
Theorem emotional_state_stays_in_ranges
    (s : EmotionalState) (d : EmotionDelta) :
  in_ranges s ->
  in_ranges (apply_delta s d) /\ in_ranges (apply_decay_between_turns s).
Proof.
  intros H. split.
  - apply apply_delta_in_ranges.
  - now apply decay_in_ranges.
Qed.

Lemma emotional_state_stays_in_ranges_witness :
  in_ranges state0 /\
  in_ranges (apply_delta state0 AgentsBase.failure_delta) /\
  in_ranges (apply_decay_between_turns state0).
Proof.
  assert (H : in_ranges state0) by (vm_compute; intuition discriminate).
  split; [exact H|].
  exact (emotional_state_stays_in_ranges state0 AgentsBase.failure_delta H).
Defined.

(** C5, as stated, fails: the name "chatbot" contains "chat", yet a
    successful run of it leaves [social_need] without the extra -0.02. *)
Lemma chat_substring_counterexample :
  let run := Scenarios.run_of "chatbot" SUCCESS in
  Py.contains run.(run_agent_name) "chat" = true /\
  (run_delta run).(d_social_need) == status_social_need run /\
  ~ (run_delta run).(d_social_need) == status_social_need run - 0.02.
Proof.
  vm_compute. repeat split; discriminate.
Qed.

(** C5, amended.  For every run whose lower-cased agent name contains
    "chat_agent", the delta of [update_on_agent_run] carries the
    status-based social-need increment minus 0.02, and the new
    [social_need] is the old one plus that amount, clamped. *)
Theorem chat_agent_social_need (state : EmotionalState) (run : AgentRun) :
  name_has run "chat_agent" = true ->
  (run_delta run).(d_social_need) == status_social_need run - 0.02 /\
  (update_on_agent_run state run).(social_need)
  == _clamp01 (state.(social_need) + (status_social_need run - 0.02)).
Proof.
  intros H.
  assert (E : (run_delta run).(d_social_need)
              == status_social_need run - 0.02).
  { unfold run_delta, status_social_need; cbn [d_social_need].
    rewrite H. destruct (is_success run); lra. }
  split; [exact E|].
  unfold update_on_agent_run, apply_delta; cbn [social_need].
  apply clamp01_proper. rewrite E. reflexivity.
Qed.

Lemma chat_agent_social_need_witness :
  let run := Scenarios.run_of "Chat_Agent" FAILURE in
  (run_delta run).(d_social_need) == status_social_need run - 0.02 /\
  (update_on_agent_run state0 run).(social_need)
  == _clamp01 (state0.(social_need) + (status_social_need run - 0.02)).
Proof.
  apply (chat_agent_social_need state0
           (Scenarios.run_of "Chat_Agent" FAILURE)).
  vm_compute. reflexivity.
Defined.

End EmotionClaims.

Section PlanFacts.
Import Models.

Lemma deps_ready_spec (ts : list Task) (deps : list string) :
  deps_ready ts deps = true <->
  forall d dep, In d deps -> find_task ts d = Some dep ->
                dep.(status) = DONE \/ dep.(status) = ERROR.
Proof.
  induction deps as [|d deps IH]; cbn [deps_ready].
  - split; [intros _ ? ? []|reflexivity].
  - destruct (find_task ts d) as [dep|] eqn:F.
    + destruct (status dep) eqn:S.
      * split; [discriminate|].
        intros H. destruct (H d dep (or_introl eq_refl) F); congruence.
      * split; [discriminate|].
        intros H. destruct (H d dep (or_introl eq_refl) F); congruence.
      * rewrite IH. split.
        -- intros H d' dep' [<-|I] F'; [|now apply (H d')].
           rewrite F in F'. injection F' as <-. now left.
        -- intros H d' dep' I. apply H. now right.
      * rewrite IH. split.
        -- intros H d' dep' [<-|I] F'; [|now apply (H d')].
           rewrite F in F'. injection F' as <-. now right.
        -- intros H d' dep' I. apply H. now right.
    + rewrite IH. split.
      * intros H d' dep' [<-|I] F'; [congruence|now apply (H d')].
      * intros H d' dep' I. apply H. now right.
Qed.

Lemma next_from_sound (ts l : list Task) (k j : nat) :
  next_from ts l k = Some j ->
  exists t, l !! (j - k)%nat = Some t /\ (k <= j)%nat /\
            t.(status) = PENDING /\ deps_ready ts t.(depends_on) = true.
Proof.
  revert k. induction l as [|t l IH]; intros k; cbn [next_from].
  - discriminate.
  - assert (Skip : next_from ts l (S k) = Some j ->
                   exists t0, (t :: l) !! (j - k)%nat = Some t0 /\
                     (k <= j)%nat /\ status t0 = PENDING /\
                     deps_ready ts (depends_on t0) = true).
    { intros H. destruct (IH _ H) as (t0 & N & L & P & R).
      exists t0. replace (j - k)%nat with (S (j - S k)) by lia.
      repeat split; [exact N|lia|exact P|exact R]. }
    destruct (status t) eqn:S; try exact Skip.
    destruct (deps_ready ts (depends_on t)) eqn:R; [|exact Skip].
    intros [= <-]. exists t. rewrite Nat.sub_diag.
    repeat split; [lia|exact S|exact R].
Qed.

(** What the code guarantees about the task it picks: it is pending and
    none of its dependencies found in the plan is pending or running. *)
Lemma get_next_task_ready (p : Plan) (t : Task) :
  get_next_task p = Some t ->
  t.(status) = PENDING /\
  forall d dep, In d t.(depends_on) -> find_task p.(tasks) d = Some dep ->
                dep.(status) = DONE \/ dep.(status) = ERROR.
Proof.
  unfold get_next_task, get_next_index.
  destruct (next_from _ _ _) as [j|] eqn:N; [|discriminate].
  intros H. destruct (next_from_sound _ _ _ _ N) as (t0 & N0 & _ & P & R).
  rewrite Nat.sub_0_r in N0. rewrite H in N0. injection N0 as <-.
  split; [exact P|]. now apply deps_ready_spec.
Qed.





End PlanFacts.

Section OrchestratorFacts.
Import Models Memory AgentsBase Orchestrator Conditions.

Variable self : Orchestrator.


(** [_execute_task] once the agent is found in the registry. *)
Lemma execute_task_registered (st : Turn) (i : nat) (task : Task)
    (cid : string) (agent : Agent) :
  self.(registry) !! task.(agent_name) = Some agent ->
  let running := mark_running task in
  let ctx := set_task_in st.(turn_context) i running in
  let rm :=
    AgentsBase.run agent (self.(uuid4) st.(draws))
      (self.(utcnow) st.(draws)) task.(input_payload) ctx
      st.(turn_memory) in
  _execute_task self st i task cid
  = inr (shown_message agent (fst rm)
           (visible_message (fst rm).(output_payload)),
         stop_flag (fst rm).(output_payload),
         {| turn_context :=
              set_task_in
                (set_emotional_state ctx
                   (Emotion.update_on_agent_run ctx.(ctx_emotional_state)
                      (fst rm)))
                i (settle_task running (fst rm));
            turn_memory :=
              log_event (log_agent_run (snd rm) (fst rm))
                (match (fst rm).(run_status) with
                 | SUCCESS => AGENT_RUN_COMPLETED
                 | FAILURE => AGENT_RUN_FAILED
                 end) cid
                (AgentRunLogged task.(id) agent.(name) (fst rm).(run_id)
                   (fst rm).(run_status));
            draws := S st.(draws) |}).
Proof.
  intros H running ctx rm. unfold _execute_task, get. rewrite H.
  cbn [Py.bind Py.ret]. fold running. fold ctx.
  change (input_payload running) with (input_payload task).
  fold rm. now destruct rm.
Qed.


(** *** The retry loop *)


Lemma run_logs_no_event (agent : Agent) (new_id : string) (now : Z)
    (inp : Dict) (ctx : ConversationContext) (mem : Db) :
  logs_no_event agent ->
  (snd (AgentsBase.run agent new_id now inp ctx mem)).(events)
  = mem.(events).
Proof.
  intros Q. specialize (Q inp ctx mem). unfold AgentsBase.run.
  now destruct (_run_impl agent inp ctx mem) as [[e|r] mem'].
Qed.









End OrchestratorFacts.

Section OrchestratorClaims.
Import Models Memory AgentsBase Orchestrator Conditions.

(** C1: the code does not do what the claim and the docstring of
    [get_next_task] say.  Task "b" is pending and depends on task "a" of
    the same plan, whose status is error; [get_next_task] returns "b",
    and in a turn where "a" fails for good the loop goes on to assign
    and run "b". *)
Theorem get_next_task_picks_a_task_with_a_failed_dependency :
  get_next_task Scenarios.stranded_plan
  = Some (Scenarios.task "b" "y" PENDING ["a"] 0) /\
  Scenarios.trace Scenarios.stranded_turn
  = [ (REQUEST_RECEIVED, None); (PLAN_CREATED, None);
      (TASK_ASSIGNED, Some "a"); (AGENT_RUN_FAILED, Some "a");
      (TASK_ASSIGNED, Some "b"); (AGENT_RUN_COMPLETED, Some "b") ] /\
  Scenarios.outcome Scenarios.stranded_turn
  = [ ("a", ERROR, 0); ("b", DONE, 0) ].
Proof.
  repeat split; vm_compute; reflexivity.
Qed.







End OrchestratorClaims.

Section MemoryFacts.
Import Models Memory.
Local Open Scope list_scope.

Lemma insert_desc_in {A} (col : A -> Z) (x y : A) (l : list A) :
  In y (insert_desc col x l) <-> y = x \/ In y l.
Proof.
  induction l as [|z l IH]; cbn [insert_desc].
  - cbn. intuition.
  - destruct (col z <=? col x); cbn [In]; [intuition|].
    rewrite IH. intuition.
Qed.

Lemma order_by_desc_in {A} (col : A -> Z) (y : A) (l : list A) :
  In y (order_by_desc col l) <-> In y l.
Proof.
  unfold order_by_desc. induction l as [|x l IH]; cbn [fold_right In].
  - reflexivity.
  - rewrite insert_desc_in, IH. intuition.
Qed.

Lemma insert_desc_length {A} (col : A -> Z) (x : A) (l : list A) :
  length (insert_desc col x l) = S (length l).
Proof.
  induction l as [|z l IH]; cbn [insert_desc]; [reflexivity|].
  destruct (col z <=? col x); cbn [length]; [reflexivity|].
  now rewrite IH.
Qed.

Lemma order_by_desc_length {A} (col : A -> Z) (l : list A) :
  length (order_by_desc col l) = length l.
Proof.
  unfold order_by_desc. induction l as [|x l IH]; cbn [fold_right length];
    [reflexivity|].
  now rewrite insert_desc_length, IH.
Qed.

(** A row that is strictly newer than all the others comes first, wherever
    it was inserted last. *)
Lemma order_by_desc_newest {A} (col : A -> Z) (x : A) (l : list A) :
  (forall y, In y l -> col y < col x) ->
  order_by_desc col (l ++ [x]) = x :: order_by_desc col l.
Proof.
  unfold order_by_desc. induction l as [|y l IH]; intros H;
    cbn [app fold_right]; [reflexivity|].
  rewrite IH by (intros z I; apply H; now right).
  cbn [insert_desc].
  assert (col y < col x) by (apply H; now left).
  destruct (Z.leb_spec (col x) (col y)); [lia|reflexivity].
Qed.

Lemma in_firstn {A} (k : nat) (y : A) (l : list A) :
  In y (firstn k l) -> In y l.
Proof.
  revert l. induction k as [|k IH]; intros [|x l];
    cbn [firstn In]; try tauto.
  intros [E|I]; [now left|right; now apply IH].
Qed.

Lemma limit_rows_in {A} (n : Z) (y : A) (l : list A) :
  In y (limit_rows n l) -> In y l.
Proof.
  unfold limit_rows. destruct (n <? 0); [tauto|]. apply in_firstn.
Qed.

Lemma limit_rows_all {A} (n : Z) (l : list A) :
  n < 0 \/ Z.of_nat (length l) <= n -> limit_rows n l = l.
Proof.
  unfold limit_rows. intros H. destruct (Z.ltb_spec n 0); [reflexivity|].
  apply firstn_all2. lia.
Qed.

Lemma store_all_items (db : Db) (later : list MemoryItem) :
  (store_all db later).(memory_items) = db.(memory_items) ++ later.
Proof.
  unfold store_all. revert db.
  induction later as [|it later IH]; intros db; cbn [fold_left].
  - now rewrite app_nil_r.
  - rewrite IH. unfold store_again, store_item; cbn [snd memory_items].
    rewrite <- app_assoc. now destruct it.
Qed.

Lemma filter_none {A} (f : A -> bool) (l : list A) :
  (forall x, In x l -> f x = false) -> List.filter f l = [].
Proof.
  induction l as [|x l IH]; intros H; cbn [List.filter]; [reflexivity|].
  rewrite (H x) by now left. apply IH. intros y I. apply H. now right.
Qed.

Lemma MemoryScope_eqb_refl (s : MemoryScope) : MemoryScope_eqb s s = true.
Proof. now destruct s. Qed.

Lemma MemoryType_eqb_refl (t : MemoryType) : MemoryType_eqb t t = true.
Proof. now destruct t. Qed.

Lemma float_or_zero (x : Py.float) : Py.float_or x 0%Q == x.
Proof.
  unfold Py.float_or. destruct (Qeq_bool x 0) eqn:E; [|reflexivity].
  apply Qeq_bool_eq in E. now rewrite E.
Qed.

(** *** agent_definitions *)

Lemma find_updated (defs : list DefRow) (i : string) (f : DefRow -> DefRow) :
  (forall r, (f r).(def_id) = r.(def_id)) ->
  List.find (fun r => String.eqb r.(def_id) i)
    (map (fun r => if String.eqb r.(def_id) i then f r else r) defs)
  = option_map f (List.find (fun r => String.eqb r.(def_id) i) defs).
Proof.
  intros Hf. induction defs as [|r defs IH]; cbn [map find];
    [reflexivity|].
  destruct (String.eqb (def_id r) i) eqn:E.
  - now rewrite Hf, E.
  - rewrite E. exact IH.
Qed.

Lemma find_other (defs : list DefRow) (i j : string) (f : DefRow -> DefRow) :
  (forall r, (f r).(def_id) = r.(def_id)) -> j <> i ->
  List.find (fun r => String.eqb r.(def_id) j)
    (map (fun r => if String.eqb r.(def_id) i then f r else r) defs)
  = List.find (fun r => String.eqb r.(def_id) j) defs.
Proof.
  intros Hf Ne. induction defs as [|r defs IH]; cbn [map find];
    [reflexivity|].
  destruct (String.eqb (def_id r) i) eqn:E.
  - rewrite Hf. apply String.eqb_eq in E.
    destruct (String.eqb (def_id r) j) eqn:E'; [|exact IH].
    apply String.eqb_eq in E'. congruence.
  - now rewrite IH.
Qed.

Lemma find_has_id (defs : list DefRow) (i : string) (r : DefRow) :
  List.find (fun r => String.eqb r.(def_id) i) defs = Some r ->
  has_id defs i = true /\ r.(def_id) = i.
Proof.
  intros H. destruct (find_some _ _ H) as [I E].
  apply String.eqb_eq in E. split; [|exact E].
  unfold has_id. apply existsb_exists. exists r. split; [exact I|].
  now apply String.eqb_eq.
Qed.

End MemoryFacts.

Section MemoryClaims.
Import Models Memory.
Local Open Scope list_scope.

(** C9, as stated, fails: the item read back is the one with the greatest
    [created_at], not the one written last.  The store holds an item
    under ("k", user, semantic) stamped 10; the clock reads 5 when "new" is
    stored under the same key, scope and type; nothing is stored in
    between, and [load_item_content] returns "old". *)
Lemma store_then_load_counterexample :
  load_item_content
    (snd (store_item Scenarios.db_with_item "m-2" 5 USER SEMANTIC "k"
            "new" None))
    "k" (Some USER) (Some SEMANTIC)
  = Some "old"%string.
Proof.
  vm_compute. reflexivity.
Qed.

(** C9, amended.  [store_item(s, t, k, c)] followed by
    [load_item_content(k, s, t)] returns [c], provided the [created_at]
    of the new item is strictly later than that of every item already
    stored under the same key, scope and type, and no other item with
    that key, scope and type is stored in between (items [later] stored
    under other keys, scopes or types do not matter). *)
Theorem store_then_load (db : Db) (new_id : string) (now : Z)
    (s : MemoryScope) (t : MemoryType) (k c : string)
    (metadata : option Dict) (later : list MemoryItem) :
  (forall it, In it db.(memory_items) ->
              item_matches k (Some s) (Some t) it = true ->
              it.(item_created_at) < now) ->
  (forall it, In it later -> item_matches k (Some s) (Some t) it = false) ->
  load_item_content
    (store_all (snd (store_item db new_id now s t k c metadata)) later)
    k (Some s) (Some t)
  = Some c.
Proof.
  intros Old Later. unfold load_item_content.
  rewrite store_all_items. unfold store_item; cbn [snd memory_items].
  rewrite !List.filter_app, (filter_none _ later Later), app_nil_r.
  cbn [List.filter]. unfold item_matches at 2; cbn [item_key item_scope
    item_type]. rewrite String.eqb_refl, MemoryScope_eqb_refl,
    MemoryType_eqb_refl. cbn [andb].
  rewrite order_by_desc_newest.
  - reflexivity.
  - intros y I. apply List.filter_In in I. cbn [item_created_at].
    now apply Old.
Qed.

Lemma store_then_load_witness :
  load_item_content
    (store_all
       (snd (store_item Scenarios.db_with_item "m-2" 11 USER SEMANTIC "k"
               "new" None))
       [Scenarios.old_item_elsewhere])
    "k" (Some USER) (Some SEMANTIC)
  = Some "new"%string.
Proof.
  apply store_then_load.
  - intros it [<-|[]] _. vm_compute. reflexivity.
  - intros it [<-|[]]. vm_compute. reflexivity.
Defined.

(** C3, as stated, fails: the update branch of the upsert sets
    [name = excluded.name].  The store holds the definition "alpha" under
    the id "a1"; saving a definition with that id and the name "beta"
    leaves the row named "beta". *)
Lemma save_renames_counterexample :
  exists db',
    save_agent_definition Scenarios.db_with_alpha 50 Scenarios.renamed
    = inr db' /\
    option_map def_name (stored_definition Scenarios.db_with_alpha "a1")
    = Some "alpha"%string /\
    option_map def_name (stored_definition db' "a1") = Some "beta"%string.
Proof.
  eexists. repeat split; vm_compute; reflexivity.
Qed.

(** C3, amended.  When the store holds a definition under the id of [d]
    and [save_agent_definition d] succeeds, the stored row with that id
    takes its name, description, config, is_active, parent_id and
    lifecycle_state from [d] and keeps its created_at; every row stored
    under another id, and every other table, is left as it was. *)
Theorem save_agent_definition_updates (db db' : Db) (now : Z)
    (d : AgentDefinition) (old : DefRow) :
  stored_definition db d.(ad_id) = Some old ->
  save_agent_definition db now d = inr db' ->
  (exists new,
      stored_definition db' d.(ad_id) = Some new /\
      new.(def_id) = old.(def_id) /\
      new.(def_created_at) = old.(def_created_at) /\
      new.(def_name) = d.(ad_name) /\
      new.(def_description) = (excluded_row now d).(def_description) /\
      new.(def_config_json) = (excluded_row now d).(def_config_json) /\
      new.(def_is_active) = (excluded_row now d).(def_is_active) /\
      new.(def_parent_id) = d.(ad_parent_id) /\
      new.(def_lifecycle_state)
      = (excluded_row now d).(def_lifecycle_state)) /\
  (forall j, j <> d.(ad_id) ->
             stored_definition db' j = stored_definition db j) /\
  db'.(messages) = db.(messages) /\
  db'.(memory_items) = db.(memory_items) /\
  db'.(agent_runs) = db.(agent_runs) /\
  db'.(events) = db.(events).
Proof.
  intros Old Save. unfold save_agent_definition in Save.
  destruct (name_taken _ _ _); [discriminate|].
  unfold stored_definition in Old.
  destruct (find_has_id _ _ _ Old) as [Has _].
  cbn [excluded_row def_id] in Save. rewrite Has in Save.
  injection Save as <-. unfold stored_definition, with_definitions;
    cbn [agent_definitions messages memory_items agent_runs events].
  split; [|split; [|now repeat split]].
  - exists (do_update old (excluded_row now d)).
    rewrite (find_updated _ _ (fun r => do_update r (excluded_row now d)))
      by reflexivity.
    rewrite Old. now repeat split.
  - intros j Ne.
    now rewrite (find_other _ _ _
                   (fun r => do_update r (excluded_row now d))).
Qed.

Lemma save_agent_definition_updates_witness :
  exists db' new,
    save_agent_definition Scenarios.db_with_alpha 50 Scenarios.renamed
    = inr db' /\
    stored_definition db' "a1" = Some new /\
    new.(def_created_at) = 7 /\
    new.(def_name) = "beta"%string /\
    new.(def_lifecycle_state) = "test"%string.
Proof.
  exists Scenarios.db_renamed.
  destruct (save_agent_definition_updates Scenarios.db_with_alpha
              Scenarios.db_renamed 50 Scenarios.renamed
              Scenarios.alpha_row)
    as [(new & S & _ & C & N & _ & _ & _ & _ & L) _].
  - vm_compute. reflexivity.
  - vm_compute. reflexivity.
  - exists new. split; [vm_compute; reflexivity|]. split; [exact S|].
    split; [exact C|]. split; [exact N|]. exact L.
Defined.

(** C10.  Whatever run is logged and whatever the limit, every run that
    [get_recent_agent_runs] returns afterwards has mood, energy,
    playfulness, social_need and learning_drive equal to 0.0 in its
    [emotion_delta]; the run read back under the id of the logged run
    carries the curiosity, fatigue, frustration and confidence of the
    logged run; and that run is among those returned as soon as the limit
    does not cut the table. *)
Theorem agent_run_round_trip (db : Db) (run : AgentRun) (limit : Z) :
  let back := get_recent_agent_runs (log_agent_run db run) limit in
  (forall r, In r back ->
     r.(emotion_delta).(d_mood) = 0%Q /\
     r.(emotion_delta).(d_energy) = 0%Q /\
     r.(emotion_delta).(d_playfulness) = 0%Q /\
     r.(emotion_delta).(d_social_need) = 0%Q /\
     r.(emotion_delta).(d_learning_drive) = 0%Q) /\
  (forall r, In r back -> r.(run_id) = run.(run_id) ->
     r.(emotion_delta).(d_curiosity) == run.(emotion_delta).(d_curiosity) /\
     r.(emotion_delta).(d_fatigue) == run.(emotion_delta).(d_fatigue) /\
     r.(emotion_delta).(d_frustration)
     == run.(emotion_delta).(d_frustration) /\
     r.(emotion_delta).(d_confidence)
     == run.(emotion_delta).(d_confidence)) /\
  (limit < 0
   \/ Z.of_nat (length (log_agent_run db run).(agent_runs)) <= limit ->
   exists r, In r back /\ r.(run_id) = run.(run_id)).
Proof.
  intros back.
  assert (Rows : forall r, In r back ->
            exists row, In row (log_agent_run db run).(agent_runs)
                        /\ r = run_of_row row).
  { intros r I. unfold back, get_recent_agent_runs in I.
    apply in_rev, in_map_iff in I. destruct I as (row & <- & I).
    exists row. split; [|reflexivity].
    now apply limit_rows_in, order_by_desc_in in I. }
  split; [|split].
  - intros r I. destruct (Rows r I) as (row & _ & ->). now repeat split.
  - intros r I E. destruct (Rows r I) as (row & Ir & ->).
    unfold log_agent_run in Ir; cbn [agent_runs] in Ir.
    apply in_app_or in Ir. destruct Ir as [Ir|[<-|[]]].
    + apply List.filter_In in Ir. destruct Ir as [_ Ne]. cbn in E.
      rewrite E, String.eqb_refl in Ne. discriminate.
    + cbn. repeat split; apply float_or_zero.
  - intros H. unfold back, get_recent_agent_runs.
    rewrite limit_rows_all by now rewrite order_by_desc_length.
    eexists (run_of_row _). split.
    + apply in_rev. rewrite rev_involutive. apply in_map.
      apply order_by_desc_in. unfold log_agent_run; cbn [agent_runs].
      apply in_or_app. right. left. reflexivity.
    + reflexivity.
Qed.

Lemma agent_run_round_trip_witness :
  exists r,
    get_recent_agent_runs (log_agent_run empty_db Scenarios.full_run) 50
    = [r] /\
    r.(emotion_delta).(d_mood) = 0%Q /\
    r.(emotion_delta).(d_learning_drive) = 0%Q /\
    r.(emotion_delta).(d_confidence) == 0.4%Q.
Proof.
  destruct (agent_run_round_trip empty_db Scenarios.full_run 50)
    as (Zero & Kept & Found).
  destruct Found as (r & I & E); [right; vm_compute; discriminate|].
  exists r. split.
  - vm_compute in I. destruct I as [<-|[]]. vm_compute. reflexivity.
  - destruct (Zero r I) as (M & _ & _ & _ & L).
    destruct (Kept r I E) as (_ & _ & _ & C).
    split; [exact M|]. split; [exact L|]. exact C.
Defined.

End MemoryClaims.

Section SecurityClaims.
Import Models Memory SecurityReview.

Lemma lower_ascii_not_P (c : ascii) : Py.lower_ascii c <> "P"%char.
Proof.
  destruct c as [[] [] [] [] [] [] [] []]; vm_compute; discriminate.
Qed.

Lemma prefix_Popen_lower (s : string) :
  String.prefix "subprocess.Popen" (Py.lower s) = false.
Proof.
  do 11 (destruct s as [|? s]; [reflexivity|];
         cbn [Py.lower String.prefix];
         destruct (ascii_dec _ _); [|reflexivity]).
  destruct s as [|c s]; [reflexivity|]. cbn [Py.lower String.prefix].
  destruct (ascii_dec _ _) as [E|]; [|reflexivity].
  symmetry in E. now apply lower_ascii_not_P in E.
Qed.

(** A lower-cased text never contains the keyword "subprocess.Popen". *)
Lemma lower_never_contains_Popen (s : string) :
  Py.contains (Py.lower s) "subprocess.Popen" = false.
Proof.
  induction s as [|c s IH].
  - reflexivity.
  - change (Py.contains (Py.lower (String c s)) "subprocess.Popen")
      with (String.prefix "subprocess.Popen" (Py.lower (String c s))
            || Py.contains (Py.lower s) "subprocess.Popen").
    now rewrite prefix_Popen_lower, IH.
Qed.

(** Scenario 5 of the specification: a prompt with "rm -rf /", in any
    letter case, blocks the definition and leaves one alert. *)
Lemma security_block_example :
  hits_of (definition_of_row Scenarios.wiper_row) = ["rm -rf"] /\
  Scenarios.visible_definitions
    (Scenarios.security_scan
       (Scenarios.db_with_definition Scenarios.wiper_row))
  = [("cleanup_agent", 0, "draft")] /\
  length (Scenarios.security_alerts
            (Scenarios.security_scan
               (Scenarios.db_with_definition Scenarios.wiper_row)))
  = 1%nat.
Proof.
  repeat split; vm_compute; reflexivity.
Qed.

(** C4: the code does not do what the claim says for the keyword
    "subprocess.Popen".  The scanned text is lower-cased but this keyword
    is not, so it is never among the hits of any definition; the active
    definition "runner_agent", whose description contains
    "subprocess.Popen" letter for letter, has no hits, stays active in
    the store, and no security_alert item is written. *)
Theorem security_review_misses_subprocess_Popen :
  (forall candidate, ~ In "subprocess.Popen" (hits_of candidate)) /\
  In "subprocess.Popen" DANGEROUS_KEYWORDS /\
  Py.contains Scenarios.runner_row.(def_description) "subprocess.Popen"
  = true /\
  hits_of (definition_of_row Scenarios.runner_row) = [] /\
  Scenarios.visible_definitions
    (Scenarios.security_scan
       (Scenarios.db_with_definition Scenarios.runner_row))
  = [("runner_agent", 1, "active")] /\
  Scenarios.security_alerts
    (Scenarios.security_scan
       (Scenarios.db_with_definition Scenarios.runner_row))
  = [].
Proof.
  split.
  - intros candidate I. unfold hits_of in I.
    apply List.filter_In in I. destruct I as [_ C].
    unfold full_text in C. now rewrite lower_never_contains_Popen in C.
  - repeat split; vm_compute; try reflexivity. tauto.
Qed.

End SecurityClaims.

Section MetaRouterClaims.
Import Models MetaRouter.
Local Open Scope list_scope.

Lemma add_step_room (max_steps : Z) (plan : list Step) (agent descr : string)
    (inp : StepInput) :
  Z.of_nat (length plan) < max_steps ->
  map step_agent (add_step max_steps plan agent descr inp)
  = map step_agent plan ++ [agent].
Proof.
  intros H. unfold add_step.
  destruct (Z.leb_spec max_steps (Z.of_nat (length plan))); [lia|].
  now rewrite map_app.
Qed.

Lemma add_step_full (max_steps : Z) (plan : list Step) (agent descr : string)
    (inp : StepInput) :
  max_steps <= Z.of_nat (length plan) ->
  add_step max_steps plan agent descr inp = plan.
Proof.
  intros H. unfold add_step.
  destruct (Z.leb_spec max_steps (Z.of_nat (length plan))); [reflexivity|lia].
Qed.

(** [_build_governance_plan] yields the first [max_steps] agents of the
    pipeline, in order. *)
Lemma build_governance_plan_agents (targets : list string) (max_steps : Z) :
  map step_agent (fst (_build_governance_plan targets max_steps))
  = firstn (Z.to_nat max_steps) pipeline.
Proof.
  unfold _build_governance_plan; cbn [fst].
  assert (C : max_steps <= 0 \/ max_steps = 1 \/ max_steps = 2 \/
              max_steps = 3 \/ max_steps = 4 \/ max_steps = 5 \/
              6 <= max_steps) by lia.
  destruct C as [C|[->|[->|[->|[->|[->|C]]]]]]; try reflexivity.
  - rewrite !add_step_full by (cbn [length]; lia).
    now replace (Z.to_nat max_steps) with 0%nat by lia.
  - rewrite firstn_all2 by (cbn [pipeline length]; lia).
    unfold add_step.
    repeat (match goal with
            | |- context [max_steps <=? Z.of_nat (length ?l)] =>
                let n := eval cbn in (Z.of_nat (length l)) in
                change (Z.of_nat (length l)) with n;
                destruct (Z.leb_spec max_steps n); [lia|];
                cbn [app]
            end).
    reflexivity.
Qed.

Lemma enrich_agents (plan_id : string) (idx : nat) (l : list Step) :
  (forall s, In s l -> non_empty s.(step_agent) = true) ->
  map step_agent (enrich plan_id idx l) = map step_agent l.
Proof.
  revert idx. induction l as [|s l IH]; intros idx H; cbn [enrich map];
    [reflexivity|].
  rewrite (H s) by now left. cbn [map step_agent].
  f_equal. apply IH. intros x I. apply H. now right.
Qed.

Lemma pipeline_prefix_non_empty (n : nat) (l : list Step) :
  map step_agent l = firstn n pipeline ->
  forall s, In s l -> non_empty s.(step_agent) = true.
Proof.
  intros E s I. apply (in_map step_agent) in I. rewrite E in I.
  apply in_firstn in I. cbn in I.
  repeat (destruct I as [<-|I]; [reflexivity|]). destruct I.
Qed.

Lemma is_bad_spec (m : Metrics) :
  is_bad m = true <->
  5 <= total_runs_of m /\ (0.6 <= failure_rate_of m)%Q.
Proof.
  unfold is_bad. rewrite andb_true_iff, Z.leb_le, Qle_bool_iff. tauto.
Qed.

Lemma bad_candidates_nil (metrics : list (string * Metrics)) :
  bad_candidates metrics = [] <->
  ~ exists name m, In (name, m) metrics /\
                   5 <= total_runs_of m /\ (0.6 <= failure_rate_of m)%Q.
Proof.
  unfold bad_candidates. split.
  - intros E (name & m & I & B).
    assert (X : In (name, m)
                  (List.filter (fun kv => is_bad (snd kv)) metrics)).
    { apply List.filter_In. split; [exact I|]. now apply is_bad_spec. }
    apply (in_map fst) in X. rewrite E in X. destruct X.
  - intros N.
    destruct (List.filter (fun kv => is_bad (snd kv)) metrics)
      as [|[name m] l] eqn:F; [reflexivity|].
    exfalso. apply N. exists name, m.
    assert (X : In (name, m)
                  (List.filter (fun kv => is_bad (snd kv)) metrics))
      by (rewrite F; now left).
    apply List.filter_In in X. destruct X as [I B].
    split; [exact I|]. now apply is_bad_spec.
Qed.

(** C8.  Without the forced flag and without a governance keyword in the
    user text, [_detect_governance_intent] answers governance_mode = true
    exactly when some agent of the metrics has total_runs >= 5 and
    failure_rate >= 0.6 and the frustration is >= 0.4; and whenever it
    answers true (for whichever reason), the plan that [_run_impl] returns
    has governance_mode = true and consists of the agents of the fixed
    pipeline (architect, security_review, validator, critic, curator,
    codegen), in that order, cut to [max_steps]. *)
Theorem governance_by_metrics_and_fixed_pipeline
    (user_last : string) (inp : Input) (metrics : list (string * Metrics))
    (security_targets : list string) (emotional_state : EmotionalState)
    (internal_plan_id : string) :
  let mode :=
    fst (fst (_detect_governance_intent user_last inp metrics
                emotional_state)) in
  (flag inp.(force_governance) = false ->
   existsb (fun kw => Py.contains (Py.lower user_last) kw) gov_keywords
   = false ->
   (mode = true <->
    (exists name m, In (name, m) metrics /\
                    5 <= total_runs_of m /\ (0.6 <= failure_rate_of m)%Q)
    /\ (0.4 <= emotional_state.(frustration))%Q)) /\
  (mode = true ->
   exists out,
     _run_impl_governance inp user_last metrics security_targets
       emotional_state internal_plan_id = Some out /\
     out.(out_governance_mode) = true /\
     map step_agent out.(out_meta_plan)
     = firstn (Z.to_nat (clamp_steps inp)) pipeline).
Proof.
  intros mode. split.
  - intros Nf Nk. unfold mode, _detect_governance_intent.
    rewrite Nf, Nk.
    destruct (bad_candidates metrics) as [|b bs] eqn:B.
    + cbn [fst]. split; [discriminate|].
      intros [E _]. now apply bad_candidates_nil in B.
    + assert (E : exists name m, In (name, m) metrics /\
                    5 <= total_runs_of m /\ (0.6 <= failure_rate_of m)%Q).
      { destruct (bad_candidates metrics) eqn:B' in |- *.
        - congruence.
        - unfold bad_candidates in B.
          assert (X : In b (map fst (List.filter
                              (fun kv => is_bad (snd kv)) metrics)))
            by (rewrite B; now left).
          apply in_map_iff in X. destruct X as ([name m] & _ & X).
          apply List.filter_In in X. destruct X as [I Bad].
          exists name, m. split; [exact I|]. now apply is_bad_spec. }
      destruct (Qlt_le_dec (frustration emotional_state) 0.4) as [Lt|Ge];
        cbn [fst].
      * split; [discriminate|]. intros [_ Ge].
        exfalso. apply (Qlt_not_le _ _ Lt Ge).
      * split; [|reflexivity]. intros _. now split.
  - intros M. unfold _run_impl_governance.
    unfold mode in M.
    destruct (_detect_governance_intent user_last inp metrics
                emotional_state) as [[gm reason] targets].
    cbn [fst] in M. subst gm.
    set (gt := dedup (List.filter non_empty (targets ++ security_targets))).
    pose proof (build_governance_plan_agents gt (clamp_steps inp)) as A.
    destruct (_build_governance_plan gt (clamp_steps inp))
      as [plan_list notes].
    cbn [fst] in A.
    eexists. split; [reflexivity|]. cbn [out_governance_mode out_meta_plan].
    split; [reflexivity|].
    assert (T : map step_agent
                  (if clamp_steps inp <? Z.of_nat (length plan_list)
                   then firstn (Z.to_nat (clamp_steps inp)) plan_list
                   else plan_list)
                = firstn (Z.to_nat (clamp_steps inp)) pipeline).
    { destruct (clamp_steps inp <? Z.of_nat (length plan_list));
        [|exact A].
      rewrite <- firstn_map, A, firstn_firstn. f_equal. lia. }
    rewrite enrich_agents; [exact T|].
    eapply pipeline_prefix_non_empty, T.
Qed.

Lemma governance_by_metrics_and_fixed_pipeline_witness :
  exists out,
    _run_impl_governance Scenarios.no_input "il report non parte"
      Scenarios.failing_metrics [] Scenarios.frustrated "p1" = Some out /\
    out.(out_governance_mode) = true /\
    map step_agent out.(out_meta_plan) = pipeline.
Proof.
  destruct (governance_by_metrics_and_fixed_pipeline "il report non parte"
              Scenarios.no_input Scenarios.failing_metrics []
              Scenarios.frustrated "p1") as [_ H].
  destruct H as (out & R & G & P).
  - vm_compute. reflexivity.
  - exists out. repeat split; assumption.
Defined.

End MetaRouterClaims.

Section PlanProperties.
Import Models Properties.




Lemma next_from_some (ts l : list Task) (k : nat) (t : Task) :
  In t l -> t.(status) = PENDING -> deps_ready ts t.(depends_on) = true ->
  exists j, next_from ts l k = Some j.
Proof.
  revert k. induction l as [|x l IH]; intros k I P R; [destruct I|].
  cbn [next_from]. destruct I as [->|I].
  - rewrite P, R. now eexists.
  - destruct (status x); try (now apply IH).
    destruct (deps_ready ts (depends_on x)); [now eexists|now apply IH].
Qed.

(** X2.  [get_next_task] returns [None] exactly when every pending task
    of the plan has a dependency, found in the plan, that is pending or
    running; tasks that are not pending are never returned. *)
Theorem get_next_task_none_iff_all_blocked (p : Plan) :
  get_next_task p = None <->
  forall t, In t p.(tasks) -> t.(status) = PENDING ->
            ~ ready_in p.(tasks) t.
Proof.
  unfold get_next_task, get_next_index, ready_in. split.
  - intros N t I P R.
    destruct (next_from_some (tasks p) (tasks p) 0 t I P) as [j Nj];
      [now apply deps_ready_spec|].
    rewrite Nj in N.
    destruct (next_from_sound _ _ _ _ Nj) as (t0 & L0 & _).
    rewrite Nat.sub_0_r in L0. congruence.
  - intros H. destruct (next_from _ _ _) as [j|] eqn:N; [|reflexivity].
    destruct (next_from_sound _ _ _ _ N) as (t & L & _ & P & R).
    rewrite Nat.sub_0_r in L. exfalso.
    apply (H t); [|exact P|now apply deps_ready_spec].
    apply list_elem_of_In. eapply list_elem_of_lookup_2, L.
Qed.

End PlanProperties.

Section EmotionProperties.
Import Models Emotion Properties.
Local Open Scope Q_scope.





(** X4.  On a state within its ranges, a successful run never lowers
    confidence, curiosity, mood, energy or learning drive and never raises
    frustration; a failed run never raises confidence, mood or energy and
    never lowers frustration or social need beyond the 0.02 that a chat
    agent takes off; both kinds of run never lower fatigue, and neither
    changes playfulness. *)
Theorem run_moves_the_state_one_way (s : EmotionalState) (run : AgentRun) :
  in_ranges s ->
  let s' := update_on_agent_run s run in
  s.(fatigue) <= s'.(fatigue) /\
  s'.(playfulness) == s.(playfulness) /\
  (run.(run_status) = SUCCESS ->
   s.(confidence) <= s'.(confidence) /\
   s.(curiosity) <= s'.(curiosity) /\
   s.(mood) <= s'.(mood) /\
   s.(energy) <= s'.(energy) /\
   s.(learning_drive) <= s'.(learning_drive) /\
   s'.(frustration) <= s.(frustration) /\
   s'.(social_need) <= s.(social_need)) /\
  (run.(run_status) = FAILURE ->
   s'.(confidence) <= s.(confidence) /\
   s'.(mood) <= s.(mood) /\
   s'.(energy) <= s.(energy) /\
   s.(frustration) <= s'.(frustration) /\
   s.(social_need) <= s'.(social_need) /\
   s'.(curiosity) == s.(curiosity) /\
   s'.(learning_drive) == s.(learning_drive)).
Proof.
  unfold in_ranges, in01. intros H. cbv zeta.
  unfold update_on_agent_run, apply_delta, run_delta, is_success,
    _clamp01, _clamp, Py.max, Py.min.
  cbn [curiosity fatigue frustration confidence mood energy playfulness
       social_need learning_drive d_curiosity d_fatigue d_frustration
       d_confidence d_mood d_energy d_playfulness d_social_need
       d_learning_drive].
  destruct (run_status run);
    destruct (name_has run "requirements");
    destruct (name_has run "analysis_planner");
    destruct (name_has run "chat_agent");
    cbn [andb negb];
    (split; [|split; [|split; intros E; try discriminate E]]);
    repeat split; repeat destruct Qlt_le_dec; lra.
Qed.

Lemma run_moves_the_state_one_way_witness :
  state0.(confidence)
  <= (update_on_agent_run state0
        (Scenarios.run_of "chat_agent" SUCCESS)).(confidence) /\
  (update_on_agent_run state0
     (Scenarios.run_of "chat_agent" SUCCESS)).(frustration)
  <= state0.(frustration).
Proof.
  destruct (run_moves_the_state_one_way state0
              (Scenarios.run_of "chat_agent" SUCCESS))
    as (_ & _ & S & _).
  - vm_compute. intuition discriminate.
  - destruct (S eq_refl) as (C & _ & _ & _ & _ & F & _). now split.
Defined.

(** X5.  [update_on_agent_run] reads the status and the agent name of the
    run and nothing else: the [emotion_delta] that the agent returned (and
    the payloads) have no effect on the emotional state. *)
Theorem agent_delta_is_ignored (s : EmotionalState) (run run' : AgentRun) :
  run'.(run_status) = run.(run_status) ->
  run'.(run_agent_name) = run.(run_agent_name) ->
  update_on_agent_run s run' = update_on_agent_run s run.
Proof.
  intros Es En.
  unfold update_on_agent_run, run_delta, name_has, is_success.
  now rewrite Es, En.
Qed.

Lemma agent_delta_is_ignored_witness :
  update_on_agent_run state0 Scenarios.full_run
  = update_on_agent_run state0 (Scenarios.run_of "chat_agent" SUCCESS).
Proof.
  apply agent_delta_is_ignored; reflexivity.
Defined.

End EmotionProperties.

Section MemoryProperties.
Import Models Memory Properties.
Local Open Scope list_scope.

Lemma insert_desc_descending {A} (col : A -> Z) (x : A) (l : list A) :
  descending col l -> descending col (insert_desc col x l).
Proof.
  induction l as [|y l IH]; cbn [insert_desc descending].
  - intros _. split; [intros ? []|exact I].
  - intros [Hy Hl]. destruct (Z.leb_spec (col y) (col x)).
    + cbn [descending]. split; [|now split].
      intros z [<-|Iz]; [exact H|]. specialize (Hy z Iz). lia.
    + cbn [descending]. split; [|now apply IH].
      intros z Iz. apply insert_desc_in in Iz. destruct Iz as [->|Iz].
      * lia.
      * now apply Hy.
Qed.

Lemma order_by_desc_descending {A} (col : A -> Z) (l : list A) :
  descending col (order_by_desc col l).
Proof.
  unfold order_by_desc. induction l as [|x l IH]; cbn [fold_right].
  - exact I.
  - now apply insert_desc_descending.
Qed.

Lemma firstn_descending {A} (col : A -> Z) (k : nat) (l : list A) :
  descending col l -> descending col (firstn k l).
Proof.
  revert l. induction k as [|k IH]; intros [|x l]; cbn [firstn descending];
    try tauto.
  intros [Hx Hl]. split; [|now apply IH].
  intros y Iy. apply Hx. eapply in_firstn, Iy.
Qed.

Lemma limit_rows_descending {A} (col : A -> Z) (n : Z) (l : list A) :
  descending col l -> descending col (limit_rows n l).
Proof.
  unfold limit_rows. destruct (n <? 0); [tauto|]. apply firstn_descending.
Qed.

Lemma limit_rows_length {A} (n : Z) (l : list A) :
  0 <= n ->
  length (limit_rows n l) = Nat.min (Z.to_nat n) (length l).
Proof.
  intros H. unfold limit_rows. destruct (Z.ltb_spec n 0); [lia|].
  apply length_firstn.
Qed.

Lemma ascending_app_last {A} (col : A -> Z) (x : A) (r : list A) :
  ascending col r -> (forall y, In y r -> col y <= col x) ->
  ascending col (r ++ [x]).
Proof.
  induction r as [|z r IH]; cbn [app ascending].
  - intros _ _. split; [intros ? []|exact I].
  - intros [Hz Hr] Hx. split.
    + intros y Iy. apply in_app_or in Iy. destruct Iy as [Iy|[<-|[]]].
      * now apply Hz.
      * apply Hx. now left.
    + apply IH; [exact Hr|]. intros y Iy. apply Hx. now right.
Qed.

Lemma descending_rev_ascending {A} (col : A -> Z) (l : list A) :
  descending col l -> ascending col (rev l).
Proof.
  induction l as [|x l IH]; cbn [descending rev]; [tauto|].
  intros [Hx Hl]. apply ascending_app_last; [now apply IH|].
  intros y Iy. apply Hx. now apply in_rev.
Qed.

Lemma ascending_map {A B} (f : A -> B) (colA : A -> Z) (colB : B -> Z)
    (l : list A) :
  (forall a, colB (f a) = colA a) ->
  ascending colA l -> ascending colB (map f l).
Proof.
  intros E. induction l as [|x l IH]; cbn [map ascending]; [tauto|].
  intros [Hx Hl]. split; [|now apply IH].
  intros y Iy. apply in_map_iff in Iy. destruct Iy as (a & <- & Ia).
  rewrite !E. now apply Hx.
Qed.

(** X6.  [find_items_by_key] returns stored items only, each with the
    requested key (and scope and type when given), newest first, at most
    [limit] of them for a non-negative limit; and when the limit does not
    cut the result, every stored item that matches is returned. *)
Theorem find_items_by_key_result (db : Db) (key : string)
    (scope : option MemoryScope) (type_ : option MemoryType) (limit : Z) :
  let found := find_items_by_key db key scope type_ limit in
  (forall it, In it found ->
     In it db.(memory_items) /\ it.(item_key) = key /\
     (forall s, scope = Some s -> it.(item_scope) = s) /\
     (forall t, type_ = Some t -> it.(item_type) = t)) /\
  descending item_created_at found /\
  (0 <= limit -> Z.of_nat (length found) <= limit) /\
  (limit < 0 \/ Z.of_nat (length db.(memory_items)) <= limit ->
   forall it, In it db.(memory_items) ->
              item_matches key scope type_ it = true -> In it found).
Proof.
  cbv zeta. unfold find_items_by_key. repeat split.
  - now apply limit_rows_in, order_by_desc_in, List.filter_In in H.
  - apply limit_rows_in, order_by_desc_in, List.filter_In in H.
    destruct H as [_ M]. unfold item_matches in M.
    apply andb_true_iff in M. destruct M as [M _].
    apply andb_true_iff in M. destruct M as [M _].
    now apply String.eqb_eq in M.
  - intros s ->.
    apply limit_rows_in, order_by_desc_in, List.filter_In in H.
    destruct H as [_ M]. unfold item_matches in M.
    apply andb_true_iff in M. destruct M as [M _].
    apply andb_true_iff in M. destruct M as [_ M].
    destruct (item_scope it), s; (reflexivity || discriminate).
  - intros t ->.
    apply limit_rows_in, order_by_desc_in, List.filter_In in H.
    destruct H as [_ M]. unfold item_matches in M.
    apply andb_true_iff in M. destruct M as [_ M].
    destruct (item_type it), t; (reflexivity || discriminate).
  - apply limit_rows_descending, order_by_desc_descending.
  - intros L. rewrite limit_rows_length by exact L. lia.
  - intros L it I M. rewrite limit_rows_all.
    + apply order_by_desc_in, List.filter_In. now split.
    + rewrite order_by_desc_length.
      pose proof (filter_length_le (item_matches key scope type_)
                    (memory_items db)).
      lia.
Qed.

Lemma load_item_content_head (db : Db) (key : string)
    (scope : option MemoryScope) (type_ : option MemoryType) :
  load_item_content db key scope type_
  = option_map item_content
      (head (order_by_desc item_created_at
               (List.filter (item_matches key scope type_)
                  db.(memory_items)))).
Proof.
  unfold load_item_content, limit_rows. cbn [Z.ltb Z.compare Z.to_nat].
  now destruct (order_by_desc _ _).
Qed.

(** X7.  [load_item_content] returns [None] exactly when no stored item
    has the key (and the scope and type, when given); otherwise it returns
    the content of a stored matching item than which no matching item has
    a later [created_at]. *)
Theorem load_item_content_latest (db : Db) (key : string)
    (scope : option MemoryScope) (type_ : option MemoryType) :
  (load_item_content db key scope type_ = None <->
   forall it, In it db.(memory_items) ->
              item_matches key scope type_ it = false) /\
  (forall c, load_item_content db key scope type_ = Some c ->
   exists it, In it db.(memory_items) /\
              item_matches key scope type_ it = true /\
              it.(item_content) = c /\
              forall it', In it' db.(memory_items) ->
                          item_matches key scope type_ it' = true ->
                          it'.(item_created_at) <= it.(item_created_at)).
Proof.
  rewrite load_item_content_head.
  pose proof (order_by_desc_descending item_created_at
                (List.filter (item_matches key scope type_)
                   (memory_items db))) as D.
  pose proof (fun y => order_by_desc_in item_created_at y
                (List.filter (item_matches key scope type_)
                   (memory_items db))) as M.
  destruct (order_by_desc item_created_at _) as [|x l]; cbn [head option_map].
  - split.
    + split; [|reflexivity]. intros _ it I.
      destruct (item_matches key scope type_ it) eqn:E; [|reflexivity].
      exfalso. apply (M it). apply List.filter_In. now split.
    + discriminate.
  - assert (X : In x (List.filter (item_matches key scope type_)
                        (memory_items db))) by (apply M; now left).
    apply List.filter_In in X. destruct X as [Ix Mx]. split.
    + split; [discriminate|]. intros H. rewrite (H x Ix) in Mx.
      discriminate.
    + intros c [= <-]. exists x. repeat split; try assumption.
      intros it' I' M'.
      assert (Y : In it' (x :: l))
        by (apply M, List.filter_In; now split).
      destruct Y as [<-|Y]; [lia|]. now apply (proj1 D).
Qed.

(** X8.  [get_recent_agent_runs] returns its runs in chronological order
    (ascending [started_at]); for a non-negative limit it returns
    min(limit, number of rows) runs; each of them is a stored row read
    back, and no stored row has a later [started_at] than all of them when
    the limit is positive. *)
Theorem get_recent_agent_runs_chronological (db : Db) (limit : Z) :
  let back := get_recent_agent_runs db limit in
  ascending started_at back /\
  (0 <= limit ->
   length back = Nat.min (Z.to_nat limit) (length db.(agent_runs))) /\
  (forall r, In r back ->
     exists row, In row db.(agent_runs) /\ r = run_of_row row) /\
  (0 < limit ->
   forall row, In row db.(agent_runs) ->
     exists r, In r back /\ row.(row_started_at) <= r.(started_at)).
Proof.
  cbv zeta. unfold get_recent_agent_runs. repeat split.
  - apply descending_rev_ascending.
    assert (D : descending row_started_at
                  (limit_rows limit
                     (order_by_desc row_started_at (agent_runs db))))
      by apply limit_rows_descending, order_by_desc_descending.
    revert D. generalize (limit_rows limit
                 (order_by_desc row_started_at (agent_runs db))).
    intros l. induction l as [|x l IH]; cbn [map descending]; [tauto|].
    intros [Hx Hl]. split; [|now apply IH].
    intros y Iy. apply in_map_iff in Iy. destruct Iy as (a & <- & Ia).
    cbn. now apply Hx.
  - intros L. rewrite length_rev, length_map, limit_rows_length by exact L.
    now rewrite order_by_desc_length.
  - intros r I. apply in_rev, in_map_iff in I.
    destruct I as (row & <- & I). exists row. split; [|reflexivity].
    now apply limit_rows_in, order_by_desc_in in I.
  - intros L row I.
    pose proof (order_by_desc_descending row_started_at (agent_runs db))
      as D.
    apply (order_by_desc_in row_started_at) in I.
    unfold limit_rows. destruct (Z.ltb_spec limit 0); [lia|].
    destruct (Z.to_nat limit) as [|k] eqn:K; [lia|].
    destruct (order_by_desc row_started_at (agent_runs db)) as [|x l];
      [destruct I|].
    cbn [firstn map]. exists (run_of_row x). split.
    + apply in_rev. rewrite rev_involutive. now left.
    + cbn. destruct I as [<-|I]; [lia|]. now apply (proj1 D).
Qed.




(** X10.  For a non-negative limit, [get_recent_messages] returns the
    last [limit] logged messages (all of them when fewer are stored), in
    the order in which they were logged; in particular a message just
    logged is the last one returned whenever the limit is positive. *)
Theorem get_recent_messages_are_the_last (db : Db) (limit : Z)
    (m : Message) :
  0 <= limit ->
  get_recent_messages db limit
  = skipn (length db.(messages) - Z.to_nat limit) db.(messages) /\
  (0 < limit ->
   exists earlier,
     get_recent_messages (log_message db m) limit = earlier ++ [m]).
Proof.
  intros L.
  assert (E : forall d, get_recent_messages d limit
                        = skipn (length (messages d) - Z.to_nat limit)
                            (messages d)).
  { intros d. unfold get_recent_messages, limit_rows.
    destruct (Z.ltb_spec limit 0); [lia|].
    now rewrite firstn_rev, rev_involutive. }
  split; [apply E|]. intros Lp. rewrite E.
  unfold log_message; cbn [messages]. rewrite length_app. cbn [length].
  exists (skipn (length (messages db) + 1 - Z.to_nat limit) (messages db)).
  rewrite skipn_app.
  replace (length (messages db) + 1 - Z.to_nat limit
           - length (messages db))%nat with 0%nat by lia.
  reflexivity.
Qed.

Lemma get_recent_messages_are_the_last_witness :
  get_recent_messages
    (log_message
       (log_message empty_db
          {| msg_role := ROLE_USER; msg_content := "uno" |})
       {| msg_role := ROLE_ASSISTANT; msg_content := "due" |}) 1
  = [{| msg_role := ROLE_ASSISTANT; msg_content := "due" |}].
Proof.
  destruct (get_recent_messages_are_the_last
              (log_message
                 (log_message empty_db
                    {| msg_role := ROLE_USER; msg_content := "uno" |})
                 {| msg_role := ROLE_ASSISTANT; msg_content := "due" |})
              1 {| msg_role := ROLE_USER; msg_content := "tre" |})
    as [E _].
  - lia.
  - rewrite E. reflexivity.
Defined.

(** *** agent_definitions *)

Lemma has_id_in (defs : list DefRow) (i : string) :
  has_id defs i = true <-> In i (map def_id defs).
Proof.
  unfold has_id. rewrite existsb_exists, in_map_iff. split.
  - intros (r & I & E). apply String.eqb_eq in E. now exists r.
  - intros (r & E & I). exists r. split; [exact I|].
    now apply String.eqb_eq.
Qed.

Lemma name_taken_false (defs : list DefRow) (self n : string) :
  name_taken defs self n = false <->
  forall r, In r defs -> r.(def_id) <> self -> r.(def_name) <> n.
Proof.
  unfold name_taken. split.
  - intros H r I Ni En.
    assert (X : existsb (fun r => negb (String.eqb r.(def_id) self)
                                  && String.eqb r.(def_name) n) defs
                = true).
    { apply existsb_exists. exists r. split; [exact I|].
      apply andb_true_iff. split; [|now apply String.eqb_eq].
      apply negb_true_iff, String.eqb_neq, Ni. }
    congruence.
  - intros H. apply not_true_is_false. intros X.
    apply existsb_exists in X. destruct X as (r & I & E).
    apply andb_true_iff in E. destruct E as [Ni En].
    apply negb_true_iff, String.eqb_neq in Ni.
    apply String.eqb_eq in En. now apply (H r I Ni).
Qed.

Lemma update_ids (defs : list DefRow) (i : string) (ex : DefRow) :
  map def_id
    (map (fun r => if String.eqb r.(def_id) i then do_update r ex else r)
       defs)
  = map def_id defs.
Proof.
  induction defs as [|r defs IH]; cbn [map]; [reflexivity|].
  rewrite IH. now destruct (String.eqb (def_id r) i).
Qed.

Lemma update_names (defs : list DefRow) (i : string) (ex : DefRow) :
  List.NoDup (map def_name defs) ->
  (forall r, In r defs -> r.(def_id) <> i ->
             r.(def_name) <> ex.(def_name)) ->
  List.NoDup (map def_id defs) ->
  List.NoDup (map def_name
           (map (fun r => if String.eqb r.(def_id) i
                          then do_update r ex else r) defs)).
Proof.
  induction defs as [|r defs IH]; cbn [map]; intros Nn Free Ni;
    [constructor|].
  apply List.NoDup_cons_iff in Nn. destruct Nn as [Rn Nn].
  apply List.NoDup_cons_iff in Ni. destruct Ni as [Ri Ni].
  assert (Rest : List.NoDup (map def_name
             (map (fun r => if String.eqb (def_id r) i
                            then do_update r ex else r) defs))).
  { apply IH; try assumption. intros x I. apply Free. now right. }
  constructor; [|exact Rest].
  intros I. apply in_map_iff in I. destruct I as (y & Ey & Iy).
  apply in_map_iff in Iy. destruct Iy as (x & <- & Ix).
  destruct (String.eqb (def_id r) i) eqn:Er.
  - apply String.eqb_eq in Er. cbn [do_update def_name] in Ey.
    destruct (String.eqb (def_id x) i) eqn:Ex.
    + apply String.eqb_eq in Ex. apply Ri. apply in_map_iff.
      exists x. split; [congruence|exact Ix].
    + apply String.eqb_neq in Ex.
      apply (Free x (or_intror Ix) Ex). exact Ey.
  - apply String.eqb_neq in Er.
    destruct (String.eqb (def_id x) i) eqn:Ex.
    + cbn [do_update def_name] in Ey.
      apply (Free r (or_introl eq_refl) Er). now symmetry.
    + apply Rn. apply in_map_iff. now exists x.
Qed.

(** X11.  A successful [save_agent_definition] keeps the two uniqueness
    constraints of the table: no two rows share an id and no two rows
    share a name. *)
Theorem save_agent_definition_keeps_constraints (db db' : Db) (now : Z)
    (d : AgentDefinition) :
  valid_definitions db ->
  save_agent_definition db now d = inr db' ->
  valid_definitions db'.
Proof.
  unfold valid_definitions, save_agent_definition.
  intros [Ni Nn].
  destruct (name_taken _ _ _) eqn:T; [discriminate|].
  pose proof (proj1 (name_taken_false _ _ _) T) as Free.
  destruct (has_id _ _) eqn:H; intros [= <-];
    unfold with_definitions; cbn [agent_definitions].
  - split; [now rewrite update_ids|].
    apply update_names; assumption.
  - assert (Fresh : ~ In (def_id (excluded_row now d))
                        (map def_id (agent_definitions db))).
    { intros I. apply has_id_in in I. congruence. }
    rewrite !map_app. cbn [map]. split.
    + apply List.NoDup_app; [assumption|repeat constructor; intros []|].
      intros x Ix [<-|[]]. now apply Fresh.
    + apply List.NoDup_app; [assumption|repeat constructor; intros []|].
      intros x Ix [<-|[]]. apply in_map_iff in Ix.
      destruct Ix as (r & En & Ir). apply (Free r Ir); [|exact En].
      intros Ei. apply Fresh. apply in_map_iff. now exists r.
Qed.

Lemma save_agent_definition_keeps_constraints_witness :
  valid_definitions Scenarios.db_renamed.
Proof.
  apply (save_agent_definition_keeps_constraints Scenarios.db_with_alpha
           Scenarios.db_renamed 50 Scenarios.renamed).
  - split; repeat constructor; intros [].
  - vm_compute. reflexivity.
Defined.

Lemma insert_asc_in {A} (col : A -> Z) (x y : A) (l : list A) :
  In y (insert_asc col x l) <-> y = x \/ In y l.
Proof.
  induction l as [|z l IH]; cbn [insert_asc].
  - cbn. intuition.
  - destruct (col x <=? col z); cbn [In]; [intuition|].
    rewrite IH. intuition.
Qed.

Lemma order_by_asc_in {A} (col : A -> Z) (y : A) (l : list A) :
  In y (order_by_asc col l) <-> In y l.
Proof.
  unfold order_by_asc. induction l as [|x l IH]; cbn [fold_right In].
  - reflexivity.
  - rewrite insert_asc_in, IH. intuition.
Qed.

Lemma insert_asc_length {A} (col : A -> Z) (x : A) (l : list A) :
  length (insert_asc col x l) = S (length l).
Proof.
  induction l as [|z l IH]; cbn [insert_asc]; [reflexivity|].
  destruct (col x <=? col z); cbn [length]; [reflexivity|].
  now rewrite IH.
Qed.

Lemma insert_asc_ascending {A} (col : A -> Z) (x : A) (l : list A) :
  ascending col l -> ascending col (insert_asc col x l).
Proof.
  induction l as [|y l IH]; cbn [insert_asc ascending].
  - intros _. split; [intros ? []|exact I].
  - intros [Hy Hl]. destruct (Z.leb_spec (col x) (col y)).
    + cbn [ascending]. split; [|now split].
      intros z [<-|Iz]; [exact H|]. specialize (Hy z Iz). lia.
    + cbn [ascending]. split; [|now apply IH].
      intros z Iz. apply insert_asc_in in Iz. destruct Iz as [->|Iz].
      * lia.
      * now apply Hy.
Qed.

(** X12.  After a successful [save_agent_definition d], inserting or
    updating, [list_agent_definitions] returns a definition with the id of
    [d] whose name, description, config, is_active, parent_id and
    lifecycle_state are those just saved (an absent description reads back
    as "", an absent config as empty, an absent or empty lifecycle_state
    as "draft", is_active as a boolean), and whose [security_flags] are
    absent: the flags are never persisted. *)
Theorem save_then_list (db db' : Db) (now : Z) (d : AgentDefinition) :
  save_agent_definition db now d = inr db' ->
  exists d',
    In d' (list_agent_definitions db') /\
    d'.(ad_id) = d.(ad_id) /\
    d'.(ad_name) = d.(ad_name) /\
    d'.(ad_description)
    = Some (match d.(ad_description) with Some x => x | None => "" end) /\
    d'.(ad_config)
    = Some (match d.(ad_config) with Some c => c | None => [] end) /\
    d'.(ad_is_active)
    = Some (match d.(ad_is_active) with Some b => b | None => false end) /\
    d'.(ad_parent_id) = d.(ad_parent_id) /\
    d'.(ad_lifecycle_state)
    = Some (match d.(ad_lifecycle_state) with
            | Some "" | None => "draft"
            | Some x => x
            end) /\
    d'.(ad_security_flags) = None.
Proof.
  unfold save_agent_definition.
  destruct (name_taken _ _ _); [discriminate|].
  assert (Fields : forall r,
            r.(def_id) = d.(ad_id) ->
            r.(def_name) = d.(ad_name) ->
            r.(def_description) = (excluded_row now d).(def_description) ->
            r.(def_config_json) = (excluded_row now d).(def_config_json) ->
            r.(def_is_active) = (excluded_row now d).(def_is_active) ->
            r.(def_parent_id) = d.(ad_parent_id) ->
            r.(def_lifecycle_state)
            = (excluded_row now d).(def_lifecycle_state) ->
            In r db'.(agent_definitions) ->
            exists d',
              In d' (list_agent_definitions db') /\
              d'.(ad_id) = d.(ad_id) /\
              d'.(ad_name) = d.(ad_name) /\
              d'.(ad_description)
              = Some (match d.(ad_description) with
                      | Some x => x | None => "" end) /\
              d'.(ad_config)
              = Some (match d.(ad_config) with
                      | Some c => c | None => [] end) /\
              d'.(ad_is_active)
              = Some (match d.(ad_is_active) with
                      | Some b => b | None => false end) /\
              d'.(ad_parent_id) = d.(ad_parent_id) /\
              d'.(ad_lifecycle_state)
              = Some (match d.(ad_lifecycle_state) with
                      | Some "" | None => "draft"
                      | Some x => x
                      end) /\
              d'.(ad_security_flags) = None).
  { intros r Ei En Ed Ec Ea Ep El I. exists (definition_of_row r).
    split.
    - unfold list_agent_definitions. apply in_map.
      now apply order_by_asc_in.
    - unfold definition_of_row;
        cbn [ad_id ad_name ad_description ad_config ad_is_active
             ad_parent_id ad_lifecycle_state ad_security_flags].
      rewrite Ei, En, Ed, Ec, Ea, Ep, El.
      cbn [excluded_row def_description def_config_json def_is_active
           def_lifecycle_state].
      repeat split.
      + now destruct (ad_is_active d) as [[]|].
      + now destruct (ad_lifecycle_state d) as [[|c x]|]. }
  destruct (has_id _ _) eqn:H; intros [= E].
  - apply has_id_in, in_map_iff in H. destruct H as (old & Eo & Io).
    apply (Fields (do_update old (excluded_row now d))); try reflexivity.
    + exact Eo.
    + rewrite <- E. unfold with_definitions; cbn [agent_definitions].
      apply in_map_iff. exists old. split; [|exact Io].
      cbn [excluded_row def_id] in *. rewrite Eo.
      now rewrite String.eqb_refl.
  - apply (Fields (excluded_row now d)); try reflexivity.
    rewrite <- E. unfold with_definitions; cbn [agent_definitions].
    apply in_or_app. right. now left.
Qed.

Lemma save_then_list_witness :
  exists d',
    In d' (list_agent_definitions Scenarios.db_renamed) /\
    d'.(ad_name) = "beta"%string /\
    d'.(ad_is_active) = Some false /\
    d'.(ad_lifecycle_state) = Some "test"%string.
Proof.
  destruct (save_then_list Scenarios.db_with_alpha Scenarios.db_renamed 50
              Scenarios.renamed)
    as (d' & I & _ & N & _ & _ & A & _ & L & _).
  - vm_compute. reflexivity.
  - exists d'. repeat split; assumption.
Defined.

(** X13.  [list_agent_definitions] returns one definition for every row of
    the table, ordered by ascending [created_at] (the order of the stored
    timestamps, which is the insertion order only when the callers'
    [created_at] values grow). *)
Theorem list_agent_definitions_by_created_at (db : Db) :
  let listed := list_agent_definitions db in
  length listed = length db.(agent_definitions) /\
  (forall r, In r db.(agent_definitions) ->
             In (definition_of_row r) listed) /\
  (forall d, In d listed ->
     exists r, In r db.(agent_definitions) /\ d = definition_of_row r) /\
  ascending (fun d => match d.(ad_created_at) with
                      | Some t => t | None => 0 end) listed.
Proof.
  cbv zeta. unfold list_agent_definitions. repeat split.
  - rewrite length_map. unfold order_by_asc.
    induction (agent_definitions db) as [|x l IH]; cbn [fold_right];
      [reflexivity|].
    rewrite insert_asc_length. cbn [length]. now rewrite IH.
  - intros r I. apply in_map. now apply order_by_asc_in.
  - intros d I. apply in_map_iff in I. destruct I as (r & <- & I).
    exists r. split; [|reflexivity]. now apply order_by_asc_in in I.
  - apply (ascending_map definition_of_row def_created_at);
      [reflexivity|].
    unfold order_by_asc.
    induction (agent_definitions db) as [|x l IH]; cbn [fold_right];
      [exact I|].
    now apply insert_asc_ascending.
Qed.

End MemoryProperties.

Section RegistryProperties.
Import Models Memory AgentsBase Properties.

(** X14.  [register] files an agent under its own name when that name is
    free: [get] then returns that agent, every other name resolves as
    before, and a registry in which every agent is filed under its own
    name stays so.  When the name is taken, [register] raises
    [ValueError]. *)
Theorem register_then_get (reg : AgentRegistry) (a : Agent) :
  (forall reg', register reg a = inr reg' ->
     reg !! a.(name) = None /\
     get reg' a.(name) = inr a /\
     (forall n, n <> a.(name) -> get reg' n = get reg n) /\
     (well_named reg -> well_named reg')) /\
  (is_Some (reg !! a.(name)) <->
   exists msg, register reg a = inl (Py.ValueError msg)).
Proof.
  unfold register, get. split.
  - intros reg'. destruct (reg !! name a) eqn:L; [discriminate|].
    intros [= <-]. repeat split.
    + now rewrite lookup_insert_eq.
    + intros n Ne. now rewrite lookup_insert_ne by congruence.
    + intros W n b. destruct (decide (n = name a)) as [->|Ne].
      * rewrite lookup_insert_eq. now intros [= <-].
      * rewrite lookup_insert_ne by congruence. apply W.
  - destruct (reg !! name a) eqn:L.
    + split; [intros _; now eexists|intros _; now eexists].
    + split; [intros [x X]; discriminate|intros [msg X]; discriminate].
Qed.

End RegistryProperties.

Section OrchestratorProperties.
Import Models Memory AgentsBase Orchestrator Conditions Properties.
Local Open Scope list_scope.

Variable self : Orchestrator.

(** One pass of the loop, when the picked task names a registered agent. *)
Lemma dispatch_pass (b : nat) (cid : string) (st : Turn) (resp : string)
    (p : Plan) (i : nat) (task : Task) (agent : Agent) :
  st.(turn_context).(ctx_plan) = Some p ->
  get_next_index p = Some i ->
  p.(tasks) !! i = Some task ->
  self.(registry) !! task.(agent_name) = Some agent ->
  exists resp',
    dispatch self (S b) cid st resp
    = if stop_flag
           (fst (pass_run self cid st p i task agent)).(output_payload)
      then inr (resp', after_pass self cid st p i task agent)
      else dispatch self b cid (after_pass self cid st p i task agent)
             resp'.
Proof.
  intros P G L A. cbn [dispatch]. rewrite P, G, L.
  rewrite (execute_task_registered self _ _ _ _ _ A).
  cbn [Py.bind turn_context turn_memory draws].
  eexists. unfold after_pass, pass_run.
  destruct (stop_flag _); reflexivity.
Qed.

(** The three ways in which a pass can go. *)
Lemma dispatch_cases (b : nat) (cid : string) (st : Turn) (resp : string) :
  dispatch self (S b) cid st resp = inr (resp, st)
  \/ (exists e, dispatch self (S b) cid st resp = inl e)
  \/ (exists p i task agent resp',
        st.(turn_context).(ctx_plan) = Some p /\
        get_next_index p = Some i /\
        p.(tasks) !! i = Some task /\
        self.(registry) !! task.(agent_name) = Some agent /\
        dispatch self (S b) cid st resp
        = if stop_flag
               (fst (pass_run self cid st p i task agent)).(output_payload)
          then inr (resp', after_pass self cid st p i task agent)
          else dispatch self b cid (after_pass self cid st p i task agent)
                 resp').
Proof.
  destruct (ctx_plan (turn_context st)) as [p|] eqn:P;
    [|left; cbn [dispatch]; now rewrite P].
  destruct (get_next_index p) as [i|] eqn:G;
    [|left; cbn [dispatch]; now rewrite P, G].
  destruct (tasks p !! i) as [task|] eqn:L;
    [|left; cbn [dispatch]; now rewrite P, G, L].
  destruct (registry self !! agent_name task) as [agent|] eqn:A.
  - right. right.
    destruct (dispatch_pass b cid st resp p i task agent P G L A)
      as [resp' D].
    now exists p, i, task, agent, resp'.
  - right. left. cbn [dispatch]. rewrite P, G, L.
    unfold _execute_task, get. rewrite A. cbn. now eexists.
Qed.

(** A property of the turn state that every pass keeps is kept by the
    whole loop. *)
Lemma dispatch_keeps (Inv : Turn -> Prop) :
  (forall cid st p i task agent,
      st.(turn_context).(ctx_plan) = Some p ->
      get_next_index p = Some i ->
      p.(tasks) !! i = Some task ->
      self.(registry) !! task.(agent_name) = Some agent ->
      Inv st -> Inv (after_pass self cid st p i task agent)) ->
  forall b cid st resp resp' st',
    Inv st -> dispatch self b cid st resp = inr (resp', st') -> Inv st'.
Proof.
  intros Step. induction b as [|b IH]; intros cid st resp resp' st' H D.
  - cbn in D. now injection D as _ <-.
  - destruct (dispatch_cases b cid st resp)
      as [E|[[e E]|(p & i & task & agent & r & P & G & L & A & E)]];
      rewrite E in D.
    + now injection D as _ <-.
    + discriminate.
    + pose proof (Step cid st p i task agent P G L A H) as H'.
      destruct (stop_flag _).
      * now injection D as _ <-.
      * eapply IH; [exact H'|exact D].
Qed.

Lemma after_pass_plan (cid : string) (st : Turn) (p : Plan) (i : nat)
    (task : Task) (agent : Agent) :
  st.(turn_context).(ctx_plan) = Some p ->
  (after_pass self cid st p i task agent).(turn_context).(ctx_plan)
  = Some (set_task p i
            (settle_task (mark_running task)
               (fst (pass_run self cid st p i task agent)))).
Proof.
  intros P. unfold after_pass; cbn [turn_context].
  unfold set_task_in, set_plan, set_emotional_state; cbn [ctx_plan].
  rewrite P. cbn [option_map]. f_equal.
  unfold set_task; cbn [tasks plan_id governance_mode_meta].
  now rewrite list_insert_insert_eq.
Qed.

Lemma after_pass_events (cid : string) (st : Turn) (p : Plan) (i : nat)
    (task : Task) (agent : Agent) :
  logs_no_event agent ->
  exists assigned outcome,
    (after_pass self cid st p i task agent).(turn_memory).(events)
    = st.(turn_memory).(events) ++ [assigned; outcome] /\
    paired [assigned; outcome].
Proof.
  intros Q. unfold after_pass; cbn [turn_memory].
  unfold log_event at 1; cbn [events]. unfold log_agent_run; cbn [events].
  unfold pass_run. rewrite (run_logs_no_event _ _ _ _ _ _ Q).
  unfold log_event; cbn [events]. rewrite <- app_assoc. cbn [app].
  eexists _, _. split; [reflexivity|]. cbn [paired ev_type ev_payload].
  repeat split.
  - destruct (run_status _); [now left|now right].
  - now eexists _, _, _, _, _, _, _.
Qed.

Lemma paired_app (evs evs' : list Event) :
  paired evs -> paired evs' -> paired (evs ++ evs').
Proof.
  revert evs'. induction evs as [evs IH] using (induction_ltof1 _ (@length _)).
  intros evs'. destruct evs as [|a [|b rest]]; cbn [paired app];
    try tauto.
  intros (Ta & To & Tp & Tr) H. repeat split; try assumption.
  apply IH; [unfold ltof; cbn; lia|exact Tr|exact H].
Qed.

(** The events of the loop: pairs, two for each task executed, and no
    more tasks than the budget. *)
Lemma dispatch_events (b : nat) (cid : string) (st : Turn) (resp : string)
    (resp' : string) (st' : Turn) :
  quiet_registry self ->
  dispatch self b cid st resp = inr (resp', st') ->
  exists evs,
    st'.(turn_memory).(events) = st.(turn_memory).(events) ++ evs /\
    paired evs /\
    length evs = (2 * (st'.(draws) - st.(draws)))%nat /\
    (st.(draws) <= st'.(draws) <= st.(draws) + b)%nat.
Proof.
  intros Q. revert st resp. induction b as [|b IH]; intros st resp D.
  - cbn in D. injection D as _ <-. exists [].
    rewrite app_nil_r, Nat.sub_diag.
    split; [reflexivity|]. split; [exact I|]. split; [reflexivity|lia].
  - assert (Here : exists evs,
               events (turn_memory st) = events (turn_memory st) ++ evs /\
               paired evs /\
               length evs = (2 * (draws st - draws st))%nat /\
               (draws st <= draws st <= draws st + S b)%nat).
    { exists []. rewrite app_nil_r, Nat.sub_diag.
      split; [reflexivity|]. split; [exact I|].
      split; [reflexivity|lia]. }
    destruct (dispatch_cases b cid st resp)
      as [E|[[e E]|(p & i & task & agent & r & P & G & L & A & E)]];
      rewrite E in D.
    + now injection D as _ <-.
    + discriminate.
    + destruct (after_pass_events cid st p i task agent (Q _ _ A))
        as (ta & ar & Ev & Pa).
      assert (Dr : draws (after_pass self cid st p i task agent)
                   = S (draws st)) by reflexivity.
      destruct (stop_flag _).
      * injection D as _ <-. exists [ta; ar]. rewrite Dr.
        split; [exact Ev|]. split; [exact Pa|].
        split; [cbn [length]|]; lia.
      * destruct (IH _ _ D) as (evs & Ev' & Pa' & Len & Dr').
        exists ([ta; ar] ++ evs). rewrite Ev', Ev, <- app_assoc.
        split; [reflexivity|]. split; [now apply paired_app|].
        split; [|lia]. rewrite length_app, Len. cbn [length]. lia.
Qed.

(** [handle_user_message], seen from its result. *)
Lemma handle_user_message_inr (context : ConversationContext) (memory : Db)
    (text reply : string) (st : Turn) :
  handle_user_message self context memory text = inr (reply, st) ->
  let opened := open_turn self context memory text in
  let ctx0 := snd (fst opened) in
  let mem0 := snd opened in
  match fst (fst opened) with
  | None =>
      reply = no_plan_fallback /\
      st.(turn_context) = add_message ctx0 ROLE_ASSISTANT reply /\
      st.(turn_memory).(events)
      = mem0.(events)
        ++ [{| ev_type := PLAN_CREATED;
               ev_correlation_id := correlation_of context;
               ev_payload :=
                 PlanCreated ctx0.(ctx_id) None 0 []
                   (Some "router.build_plan returned None"%string) |}] /\
      st.(draws) = 0%nat
  | Some p =>
      exists resp st1,
        dispatch self (Z.to_nat self.(max_tasks_per_turn))
          (correlation_of context) (planned ctx0 mem0 p) ""
        = inr (resp, st1) /\
        reply = (if is_empty resp then no_output_fallback else resp) /\
        st.(turn_context)
        = add_message st1.(turn_context) ROLE_ASSISTANT reply /\
        st.(turn_memory).(events) = st1.(turn_memory).(events) /\
        st.(draws) = st1.(draws)
  end.
Proof.
  unfold handle_user_message. cbv zeta.
  destruct (open_turn self context memory text) as [[[p|] ctx0] mem0];
    cbn [fst snd].
  - destruct (dispatch self _ _ _ _) as [e|[resp st1]]; cbn [Py.bind];
      [discriminate|].
    intros [= <- <-]. exists resp, st1. now repeat split.
  - intros [= <- <-]. now repeat split.
Qed.

Lemma open_turn_result (context : ConversationContext) (memory : Db)
    (text : string) :
  let opened := open_turn self context memory text in
  let ctx0 := snd (fst opened) in
  ctx0.(ctx_plan) = fst (fst opened) /\
  ctx0.(ctx_messages)
  = context.(ctx_messages)
    ++ [{| msg_role := ROLE_USER; msg_content := text |}] /\
  ctx0.(ctx_id) = context.(ctx_id) /\
  ctx0.(ctx_user_id) = context.(ctx_user_id) /\
  ctx0.(ctx_correlation_id) = context.(ctx_correlation_id) /\
  ctx0.(ctx_emotional_state)
  = Emotion.apply_decay_between_turns context.(ctx_emotional_state).
Proof.
  cbv zeta. unfold open_turn.
  destruct (build_plan self _ _) as [plan mem]. cbn. now repeat split.
Qed.

Lemma fallbacks_not_empty :
  no_plan_fallback <> ""%string /\ no_output_fallback <> ""%string.
Proof. split; vm_compute; discriminate. Qed.

(** X15.  When [handle_user_message] returns, its reply is not the empty
    string, and the conversation has grown by exactly two messages: the
    user's text and then the reply as an assistant message; the ids of
    the context are untouched. *)
Theorem turn_reply_and_messages (context : ConversationContext)
    (memory : Db) (text reply : string) (st : Turn) :
  handle_user_message self context memory text = inr (reply, st) ->
  reply <> ""%string /\
  st.(turn_context).(ctx_messages)
  = context.(ctx_messages)
    ++ [ {| msg_role := ROLE_USER; msg_content := text |};
         {| msg_role := ROLE_ASSISTANT; msg_content := reply |} ] /\
  st.(turn_context).(ctx_id) = context.(ctx_id) /\
  st.(turn_context).(ctx_user_id) = context.(ctx_user_id).
Proof.
  intros H. pose proof (handle_user_message_inr _ _ _ _ _ H) as R.
  cbv zeta in R.
  destruct (open_turn_result context memory text)
    as (Pl & Ms & Ci & Cu & _ & _). cbv zeta in *.
  destruct (fst (fst (open_turn self context memory text))) as [p|].
  - destruct R as (resp & st1 & D & Er & Ec & _ & _).
    assert (K : st1.(turn_context).(ctx_messages)
                = (snd (fst (open_turn self context memory text)))
                    .(ctx_messages) /\
                st1.(turn_context).(ctx_id)
                = (snd (fst (open_turn self context memory text))).(ctx_id)
                /\
                st1.(turn_context).(ctx_user_id)
                = (snd (fst (open_turn self context memory text)))
                    .(ctx_user_id)).
    { refine (dispatch_keeps
               (fun s => s.(turn_context).(ctx_messages)
                         = (snd (fst (open_turn self context memory text)))
                             .(ctx_messages) /\
                         s.(turn_context).(ctx_id)
                         = (snd (fst (open_turn self context memory text)))
                             .(ctx_id) /\
                         s.(turn_context).(ctx_user_id)
                         = (snd (fst (open_turn self context memory text)))
                             .(ctx_user_id))
               _ _ _ _ _ _ _ _ D).
      - intros cid s q i task agent _ _ _ _ K. exact K.
      - now repeat split. }
    destruct K as (Km & Ki & Ku). rewrite Ec. cbn.
    rewrite Km, Ms, Ki, Ku, <- app_assoc. repeat split; try assumption.
    rewrite Er. destruct resp; [apply fallbacks_not_empty|discriminate].
  - destruct R as (Er & Ec & _). rewrite Ec. cbn.
    rewrite Ms, <- app_assoc. repeat split; try assumption.
    rewrite Er. apply fallbacks_not_empty.
Qed.

Lemma open_turn_events (context : ConversationContext) (memory : Db)
    (text : string) :
  (forall c m, (snd (self.(build_plan) c m)).(events) = m.(events)) ->
  (snd (open_turn self context memory text)).(events)
  = memory.(events)
    ++ [{| ev_type := REQUEST_RECEIVED;
           ev_correlation_id := correlation_of context;
           ev_payload := RequestReceived context.(ctx_id) text |}].
Proof.
  intros R. unfold open_turn.
  match goal with
  | |- context [build_plan self ?c ?m] =>
      specialize (R c m); destruct (build_plan self c m) as [plan mem]
  end.
  cbn [snd] in *. rewrite R. reflexivity.
Qed.

(** X16.  When neither the router nor the registered agents write to the
    event log themselves, the events that a returned turn appends are
    REQUEST_RECEIVED, then PLAN_CREATED, then for each executed task a
    TASK_ASSIGNED event followed at once by the AGENT_RUN_COMPLETED or
    AGENT_RUN_FAILED event of the same task; no more than
    [max_tasks_per_turn] tasks are executed. *)
Theorem turn_event_stream (context : ConversationContext) (memory : Db)
    (text reply : string) (st : Turn) :
  quiet_registry self ->
  (forall c m, (snd (self.(build_plan) c m)).(events) = m.(events)) ->
  handle_user_message self context memory text = inr (reply, st) ->
  exists request plan_created evs,
    st.(turn_memory).(events)
    = memory.(events) ++ request :: plan_created :: evs /\
    request.(ev_type) = REQUEST_RECEIVED /\
    plan_created.(ev_type) = PLAN_CREATED /\
    paired evs /\
    length evs = (2 * st.(draws))%nat /\
    Z.of_nat st.(draws) <= Z.max 0 self.(max_tasks_per_turn).
Proof.
  intros Q R H. pose proof (handle_user_message_inr _ _ _ _ _ H) as T.
  cbv zeta in T. pose proof (open_turn_events context memory text R) as O.
  destruct (fst (fst (open_turn self context memory text))) as [p|].
  - destruct T as (resp & st1 & D & _ & _ & Ev & Dr).
    destruct (dispatch_events _ _ _ _ _ _ Q D)
      as (evs & Ev1 & Pa & Len & Bd).
    cbn [planned turn_memory draws] in Ev1, Len, Bd.
    unfold log_event in Ev1; cbn [events] in Ev1.
    eexists _, _, evs. rewrite Ev, Ev1, O, <- !app_assoc. cbn [app].
    split; [reflexivity|]. repeat split; try assumption.
    + rewrite Dr, Len. f_equal. lia.
    + lia.
  - destruct T as (_ & _ & Ev & Dr).
    eexists _, _, []. rewrite Ev, O, <- app_assoc. cbn [app].
    split; [reflexivity|]. rewrite Dr. repeat split. lia.
Qed.

(** X17.  If the emotional state of the context lies within its ranges
    when a turn starts, it does so when the turn returns, whatever the
    plan and whatever the agents return. *)
Theorem turn_keeps_emotions_in_range (context : ConversationContext)
    (memory : Db) (text reply : string) (st : Turn) :
  Emotion.in_ranges context.(ctx_emotional_state) ->
  handle_user_message self context memory text = inr (reply, st) ->
  Emotion.in_ranges st.(turn_context).(ctx_emotional_state).
Proof.
  intros E H. pose proof (handle_user_message_inr _ _ _ _ _ H) as T.
  cbv zeta in T.
  destruct (open_turn_result context memory text)
    as (_ & _ & _ & _ & _ & Em). cbv zeta in Em.
  assert (E0 : Emotion.in_ranges
                 (ctx_emotional_state
                    (snd (fst (open_turn self context memory text))))).
  { rewrite Em. now apply decay_in_ranges. }
  destruct (fst (fst (open_turn self context memory text))) as [p|].
  - destruct T as (resp & st1 & D & _ & Ec & _). rewrite Ec. cbn.
    refine (dispatch_keeps
              (fun s => Emotion.in_ranges
                          s.(turn_context).(ctx_emotional_state))
              _ _ _ _ _ _ _ _ D).
    + intros cid s q i task agent _ _ _ _ _. unfold after_pass.
      cbn. apply apply_delta_in_ranges.
    + exact E0.
  - destruct T as (_ & Ec & _). rewrite Ec. cbn. exact E0.
Qed.

Lemma task_at_after_pass (cid : string) (st : Turn) (p : Plan) (i j : nat)
    (task : Task) (agent : Agent) :
  st.(turn_context).(ctx_plan) = Some p ->
  p.(tasks) !! i = Some task ->
  task_at (after_pass self cid st p i task agent) j
  = if decide (j = i)
    then Some (settle_task (mark_running task)
                 (fst (pass_run self cid st p i task agent)))
    else task_at st j.
Proof.
  intros P L. unfold task_at. rewrite after_pass_plan by exact P.
  rewrite P. cbn [set_task tasks].
  destruct (decide (j = i)) as [->|Ne].
  - apply list_lookup_insert_eq. eapply lookup_lt_Some, L.
  - apply list_lookup_insert_ne. congruence.
Qed.

(** X18.  A task that is done or in error is final: whatever the
    dispatch loop does afterwards, it is found at its position exactly as
    it was (status, result, error text and retry count included). *)
Theorem finished_tasks_are_final (b : nat) (cid : string) (st st' : Turn)
    (resp resp' : string) (j : nat) (t : Task) :
  task_at st j = Some t ->
  t.(status) = DONE \/ t.(status) = ERROR ->
  dispatch self b cid st resp = inr (resp', st') ->
  task_at st' j = Some t.
Proof.
  intros T F D.
  refine (dispatch_keeps (fun s => task_at s j = Some t)
            _ _ _ _ _ _ _ T D).
  intros c s q i task agent P G L A K.
  rewrite (task_at_after_pass c s q i j task agent P L).
  destruct (decide (j = i)) as [->|Ne]; [|exact K].
  exfalso. unfold task_at in K. rewrite P, L in K. injection K as ->.
  destruct (next_from_sound _ _ _ _ G) as (t0 & L0 & _ & Pe & _).
  rewrite Nat.sub_0_r, L in L0. injection L0 as <-.
  destruct F; congruence.
Qed.

(** X19.  Through any number of passes of the dispatch loop a task keeps
    its id, description, agent, input payload, dependencies and
    [max_retries]; its [retry_count] never decreases, and never exceeds
    [max_retries] if it did not at the start; and a task that was not
    running is not left running. *)
Theorem tasks_keep_identity_and_retry_bound (b : nat) (cid : string)
    (st st' : Turn) (resp resp' : string) (j : nat) (t : Task) :
  task_at st j = Some t ->
  dispatch self b cid st resp = inr (resp', st') ->
  exists t',
    task_at st' j = Some t' /\
    t'.(id) = t.(id) /\ t'.(description) = t.(description) /\
    t'.(agent_name) = t.(agent_name) /\
    t'.(input_payload) = t.(input_payload) /\
    t'.(depends_on) = t.(depends_on) /\
    t'.(max_retries) = t.(max_retries) /\
    t.(retry_count) <= t'.(retry_count) /\
    (t.(retry_count) <= t.(max_retries) ->
     t'.(retry_count) <= t.(max_retries)) /\
    (t.(status) <> RUNNING -> t'.(status) <> RUNNING).
Proof.
  intros T D.
  refine (dispatch_keeps
            (fun s => exists t',
                 task_at s j = Some t' /\
                 t'.(id) = t.(id) /\ t'.(description) = t.(description) /\
                 t'.(agent_name) = t.(agent_name) /\
                 t'.(input_payload) = t.(input_payload) /\
                 t'.(depends_on) = t.(depends_on) /\
                 t'.(max_retries) = t.(max_retries) /\
                 t.(retry_count) <= t'.(retry_count) /\
                 (t.(retry_count) <= t.(max_retries) ->
                  t'.(retry_count) <= t.(max_retries)) /\
                 (t.(status) <> RUNNING -> t'.(status) <> RUNNING))
            _ _ _ _ _ _ _ _ D).
  - intros c s q i task agent P G L A
      (t1 & T1 & Ei & Ed & Ea & Ep & Eo & Em & Mono & Bound & Run).
    rewrite (task_at_after_pass c s q i j task agent P L).
    destruct (decide (j = i)) as [->|Ne];
      [|exists t1; now repeat split].
    unfold task_at in T1. rewrite P, L in T1. injection T1 as ->.
    eexists. split; [reflexivity|].
    unfold settle_task.
    destruct (run_status _);
      [|destruct (Z.ltb_spec (retry_count (mark_running t1))
                    (max_retries (mark_running t1))) as [Lt|Ge]];
      cbn [mark_done mark_error requeue mark_running set_status id
           description agent_name input_payload depends_on max_retries
           retry_count status] in *;
      repeat split; try assumption; try lia; try discriminate.
  - exists t. repeat split; try assumption; try reflexivity; try lia;
      auto.
Qed.

Lemma run_always_stops (agent : Agent) (new_id : string) (now : Z)
    (inp : Dict) (ctx : ConversationContext) (mem : Db) :
  always_stops agent ->
  stop_flag (fst (AgentsBase.run agent new_id now inp ctx mem))
              .(output_payload) = true.
Proof.
  intros S. destruct (S inp ctx mem) as (r & E & F). unfold AgentsBase.run.
  destruct (_run_impl agent inp ctx mem) as [[e|r'] mem']; cbn in *;
    [discriminate|].
  now injection E as ->.
Qed.

Lemma task_at_reply (st : Turn) (role : MessageRole) (content : string)
    (mem : Db) (d j : nat) :
  task_at {| turn_context := add_message st.(turn_context) role content;
             turn_memory := mem; draws := d |} j
  = task_at st j.
Proof. reflexivity. Qed.

(** X20.  When the agent of the first ready task asks to stop for user
    input, the turn executes that task and no other, whatever the budget
    (if positive) and however many tasks are pending: every other task of
    the plan is left exactly as the router built it. *)
Theorem stop_for_user_input_ends_the_turn (context : ConversationContext)
    (memory : Db) (text : string) (p : Plan) (i : nat) (task : Task)
    (a : Agent) :
  fst (fst (open_turn self context memory text)) = Some p ->
  get_next_index p = Some i ->
  p.(tasks) !! i = Some task ->
  self.(registry) !! task.(agent_name) = Some a ->
  always_stops a ->
  0 < self.(max_tasks_per_turn) ->
  exists reply st,
    handle_user_message self context memory text = inr (reply, st) /\
    st.(draws) = 1%nat /\
    (forall j, j <> i -> task_at st j = p.(tasks) !! j) /\
    (exists t', task_at st i = Some t' /\ t'.(status) <> RUNNING).
Proof.
  intros O G L A S B.
  destruct (open_turn_result context memory text) as (Pl & _).
  cbv zeta in Pl. rewrite O in Pl.
  unfold handle_user_message.
  destruct (open_turn self context memory text) as [[plan ctx0] mem0].
  cbn [fst snd] in *. subst plan.
  destruct (Z.to_nat (max_tasks_per_turn self)) as [|b] eqn:Eb; [lia|].
  destruct (dispatch_pass b (correlation_of context)
              (planned ctx0 mem0 p) "" p i task a Pl G L A)
    as [resp' D].
  unfold pass_run in D. rewrite run_always_stops in D by exact S.
  rewrite D. cbn [Py.bind Py.ret]. eexists _, _.
  split; [reflexivity|]. cbn [draws turn_context]. split; [reflexivity|].
  split.
  - intros j Ne. rewrite task_at_reply.
    rewrite (task_at_after_pass (correlation_of context)
               (planned ctx0 mem0 p) p i j task a Pl L).
    destruct (decide (j = i)); [congruence|].
    unfold task_at. cbn [planned turn_context]. now rewrite Pl.
  - rewrite task_at_reply.
    rewrite (task_at_after_pass (correlation_of context)
               (planned ctx0 mem0 p) p i i task a Pl L).
    destruct (decide (i = i)); [|congruence].
    eexists. split; [reflexivity|]. unfold settle_task.
    destruct (run_status _); [discriminate|].
    destruct (_ <? _); discriminate.
Qed.

End OrchestratorProperties.

Section OrchestratorWitnesses.
Import Models Memory AgentsBase Orchestrator Conditions Properties.
Local Open Scope list_scope.

Lemma turn_reply_and_messages_witness :
  exists reply st,
    Scenarios.stranded_turn = inr (reply, st) /\
    reply <> ""%string /\
    length st.(turn_context).(ctx_messages) = 2%nat.
Proof.
  destruct Scenarios.stranded_turn as [e|[reply st]] eqn:E;
    [vm_compute in E; discriminate|].
  exists reply, st. split; [reflexivity|].
  destruct (turn_reply_and_messages _ _ _ _ _ _ E) as (N & M & _).
  split; [exact N|]. now rewrite M.
Defined.

Lemma two_agents_quiet : quiet_registry Scenarios.two_agents.
Proof.
  intros n a L. cbn in L.
  apply lookup_insert_Some in L. destruct L as [[_ <-]|[_ L]];
    [intros inp ctx mem; reflexivity|].
  apply lookup_insert_Some in L. destruct L as [[_ <-]|[_ L]];
    [intros inp ctx mem; reflexivity|].
  now rewrite lookup_empty in L.
Qed.

Lemma turn_event_stream_witness :
  exists reply st request plan_created evs,
    Scenarios.stranded_turn = inr (reply, st) /\
    st.(turn_memory).(events) = request :: plan_created :: evs /\
    paired evs /\ length evs = 4%nat.
Proof.
  destruct Scenarios.stranded_turn as [e|[reply st]] eqn:E;
    [vm_compute in E; discriminate|].
  destruct (turn_event_stream Scenarios.two_agents Scenarios.conversation
              empty_db "ciao" reply st)
    as (rq & pc & evs & Ev & _ & _ & Pa & Len & _).
  - exact two_agents_quiet.
  - intros c m. reflexivity.
  - exact E.
  - exists reply, st, rq, pc, evs. split; [reflexivity|].
    split; [exact Ev|]. split; [exact Pa|]. rewrite Len.
    vm_compute in E. now injection E as _ <-.
Defined.

Lemma turn_keeps_emotions_in_range_witness :
  exists reply st,
    Scenarios.stranded_turn = inr (reply, st) /\
    Emotion.in_ranges st.(turn_context).(ctx_emotional_state).
Proof.
  destruct Scenarios.stranded_turn as [e|[reply st]] eqn:E;
    [vm_compute in E; discriminate|].
  exists reply, st. split; [reflexivity|].
  apply (turn_keeps_emotions_in_range Scenarios.two_agents
           Scenarios.conversation empty_db "ciao" reply st).
  - vm_compute. intuition discriminate.
  - exact E.
Defined.

Lemma finished_tasks_are_final_witness :
  exists resp st',
    dispatch Scenarios.two_agents 5 "conv-1" Scenarios.stranded_state ""
    = inr (resp, st') /\
    task_at st' 0 = Some (Scenarios.task "a" "x" ERROR [] 0).
Proof.
  destruct (dispatch Scenarios.two_agents 5 "conv-1"
              Scenarios.stranded_state "") as [e|[resp st']] eqn:D;
    [vm_compute in D; discriminate|].
  exists resp, st'. split; [reflexivity|].
  apply (finished_tasks_are_final Scenarios.two_agents 5 "conv-1"
           Scenarios.stranded_state st' "" resp 0).
  - reflexivity.
  - now right.
  - exact D.
Defined.

Lemma tasks_keep_identity_and_retry_bound_witness :
  exists resp st' t',
    dispatch Scenarios.two_agents 5 "conv-1" Scenarios.stranded_state ""
    = inr (resp, st') /\
    task_at st' 1 = Some t' /\
    t'.(id) = "b"%string /\ t'.(retry_count) <= 0.
Proof.
  destruct (dispatch Scenarios.two_agents 5 "conv-1"
              Scenarios.stranded_state "") as [e|[resp st']] eqn:D;
    [vm_compute in D; discriminate|].
  destruct (tasks_keep_identity_and_retry_bound Scenarios.two_agents 5
              "conv-1" Scenarios.stranded_state st' "" resp 1
              (Scenarios.task "b" "y" PENDING ["a"] 0))
    as (t' & T & Ei & _ & _ & _ & _ & _ & _ & B & _).
  - reflexivity.
  - exact D.
  - exists resp, st', t'. split; [reflexivity|]. split; [exact T|].
    split; [exact Ei|]. apply B. cbn. lia.
Defined.

Lemma stop_for_user_input_ends_the_turn_witness :
  exists reply st,
    Scenarios.stopped_turn = inr (reply, st) /\ st.(draws) = 1%nat.
Proof.
  destruct (stop_for_user_input_ends_the_turn Scenarios.one_stopper
              Scenarios.conversation empty_db "ciao"
              (Scenarios.plan_of [Scenarios.task "a" "x" PENDING [] 2])
              0 (Scenarios.task "a" "x" PENDING [] 2)
              Scenarios.stopping_agent)
    as (reply & st & H & D & _).
  - reflexivity.
  - reflexivity.
  - reflexivity.
  - vm_compute. reflexivity.
  - intros inp ctx mem. eexists. split; reflexivity.
  - vm_compute. reflexivity.
  - exists reply, st. split; [exact H|exact D].
Defined.

End OrchestratorWitnesses.

Section SecurityProperties.
Import Models Memory AgentsBase SecurityReview Properties.
Local Open Scope list_scope.

Lemma prefix_app_r (n h y : string) :
  String.prefix n h = true -> String.prefix n (h ++ y)%string = true.
Proof.
  revert h. induction n as [|a n IH]; intros h.
  - intros _. now destruct (h ++ y)%string.
  - destruct h as [|b h]; [discriminate|].
    change (String b h ++ y)%string with (String b (h ++ y)%string).
    cbn [String.prefix].
    destruct (ascii_dec a b); [apply IH|discriminate].
Qed.

Lemma contains_app_r (h y n : string) :
  Py.contains h n = true -> Py.contains (h ++ y)%string n = true.
Proof.
  induction h as [|c h IH]; cbn [Py.contains String.append].
  - rewrite orb_false_r. intros P.
    destruct n; [now destruct y|discriminate].
  - intros H. apply orb_true_iff in H. apply orb_true_iff.
    destruct H as [P|C].
    + left. now apply (prefix_app_r n (String c h) y).
    + right. now apply IH.
Qed.

Lemma contains_app_l (x h n : string) :
  Py.contains h n = true -> Py.contains (x ++ h)%string n = true.
Proof.
  intros H. induction x as [|c x IH]; [exact H|].
  change (Py.contains (String c x ++ h)%string n)
    with (String.prefix n (String c (x ++ h)%string)
          || Py.contains (x ++ h)%string n).
  rewrite IH. apply orb_true_r.
Qed.

Lemma lower_app (a b : string) :
  Py.lower (a ++ b)%string = (Py.lower a ++ Py.lower b)%string.
Proof.
  induction a as [|c a IH]; [reflexivity|].
  change (String (Py.lower_ascii c) (Py.lower (a ++ b)%string)
          = String (Py.lower_ascii c) (Py.lower a ++ Py.lower b)%string).
  now rewrite IH.
Qed.

Lemma append_nil_r (a : string) : (a ++ "")%string = a.
Proof.
  induction a as [|c a IH]; [reflexivity|].
  change (String c (a ++ "")%string = String c a). now rewrite IH.
Qed.

Lemma append_assoc (a b c : string) :
  ((a ++ b) ++ c)%string = (a ++ b ++ c)%string.
Proof.
  induction a as [|x a IH]; [reflexivity|].
  change (String x ((a ++ b) ++ c)%string = String x (a ++ b ++ c)%string).
  now rewrite IH.
Qed.

Lemma join_infix (sep b : string) (parts : list string) :
  In b parts ->
  exists x y, Py.join sep parts = (x ++ b ++ y)%string.
Proof.
  induction parts as [|p parts IH]; [intros []|].
  intros [->|I].
  - destruct parts as [|q parts].
    + exists ""%string, ""%string. cbn [Py.join String.append].
      now rewrite append_nil_r.
    + exists ""%string, (sep ++ Py.join sep (q :: parts))%string.
      reflexivity.
  - destruct (IH I) as (x & y & E). destruct parts as [|q parts];
      [destruct I|].
    exists (p ++ sep ++ x)%string, y.
    change (Py.join sep (p :: q :: parts))
      with (p ++ sep ++ Py.join sep (q :: parts))%string.
    rewrite E. now rewrite !append_assoc.
Qed.

(** A keyword found in one blob, in any letter case, is found in the
    scanned text. *)
Lemma blob_hit (candidate : AgentDefinition) (blob kw : string) :
  In blob (text_blobs candidate) ->
  Py.contains (Py.lower blob) kw = true ->
  Py.contains (full_text candidate) kw = true.
Proof.
  intros I C. unfold full_text.
  destruct (join_infix Py.nl blob _ I) as (x & y & ->).
  rewrite !lower_app. now apply contains_app_l, contains_app_r.
Qed.

Lemma nodup_map_inj {A B} (f : A -> B) (l : list A) (x y : A) :
  List.NoDup (map f l) -> In x l -> In y l -> f x = f y -> x = y.
Proof.
  induction l as [|a l IH]; cbn [map]; [intros _ []|].
  intros N Ix Iy E. apply List.NoDup_cons_iff in N. destruct N as [Na N].
  destruct Ix as [->|Ix], Iy as [->|Iy]; try reflexivity.
  - exfalso. apply Na. rewrite E. now apply in_map.
  - exfalso. apply Na. rewrite <- E. now apply in_map.
  - now apply IH.
Qed.

Section Review.
Variable dumps_alert : Alert -> string.
Variable dumps_review : Review -> string.
Variable uuid4 : nat -> string.
Variable utcnow : nat -> Z.

(** X21.  If one of the listed keywords occurs, in any letter case, in
    the name, the description or a string value of the config of a stored
    definition, reviewing that definition records an alert that carries
    its name, its id and the keyword among the hits, stores a
    "security_alert" item (scope global, type procedural) with the JSON
    text of that alert, and leaves the stored row with [is_active = 0]
    and [lifecycle_state = 'draft']. *)
Theorem security_review_blocks (st : Loop) (r : DefRow) (blob kw : string) :
  valid_definitions st.(loop_memory) ->
  In r st.(loop_memory).(agent_definitions) ->
  In blob (text_blobs (definition_of_row r)) ->
  In kw DANGEROUS_KEYWORDS ->
  Py.contains (Py.lower blob) kw = true ->
  let st' :=
    review_candidate dumps_alert dumps_review uuid4 utcnow st
      (definition_of_row r) in
  exists alert row item,
    st'.(loop_alerts) = st.(loop_alerts) ++ [alert] /\
    alert.(alert_agent) = r.(def_name) /\
    alert.(alert_agent_id) = r.(def_id) /\
    In kw alert.(alert_hits) /\
    stored_definition st'.(loop_memory) r.(def_id) = Some row /\
    row.(def_is_active) = 0 /\
    row.(def_lifecycle_state) = "draft"%string /\
    row.(def_name) = r.(def_name) /\
    In item st'.(loop_memory).(memory_items) /\
    item.(item_key) = "security_alert"%string /\
    item.(item_scope) = GLOBAL /\ item.(item_type) = PROCEDURAL /\
    item.(item_content) = dumps_alert alert.
Proof.
  intros [Ni Nn] Ir Ib Ik C. cbv zeta.
  assert (H : In kw (hits_of (definition_of_row r))).
  { unfold hits_of. apply List.filter_In. split; [exact Ik|].
    now apply (blob_hit _ blob). }
  unfold review_candidate.
  destruct (hits_of (definition_of_row r)) as [|h hs] eqn:Hits;
    [destruct H|].
  assert (T : name_taken (agent_definitions (loop_memory st))
                (def_id r) (def_name r) = false).
  { apply name_taken_false. intros x Ix Nid En. apply Nid.
    now rewrite (nodup_map_inj def_name _ x r Nn Ix Ir En). }
  assert (Hid : has_id (agent_definitions (loop_memory st)) (def_id r)
                = true).
  { apply has_id_in. now apply in_map. }
  destruct (List.find (fun r0 => String.eqb (def_id r0) (def_id r))
              (agent_definitions (loop_memory st))) as [old|] eqn:F;
    [|pose proof (find_none _ _ F r Ir) as X; cbn beta in X;
      rewrite String.eqb_refl in X; discriminate].
  unfold save_agent_definition.
  cbn [excluded_row block definition_of_row ad_id ad_name def_id def_name].
  rewrite T, Hid. cbn [Py.ret].
  eexists _, _, _. cbn [loop_alerts loop_memory].
  split; [reflexivity|]. cbn [alert_agent alert_agent_id alert_hits].
  split; [reflexivity|]. split; [reflexivity|]. split; [exact H|].
  unfold stored_definition, store_item, with_definitions;
    cbn [snd agent_definitions memory_items].
  rewrite find_updated by reflexivity. rewrite F.
  cbn [option_map]. split; [reflexivity|].
  cbn [do_update def_is_active def_lifecycle_state def_name].
  split; [reflexivity|]. split; [reflexivity|]. split; [reflexivity|].
  split.
  - apply in_or_app. left. apply in_or_app. right. now left.
  - now repeat split.
Qed.






End Review.

Lemma two_definitions_valid :
  valid_definitions Scenarios.db_with_two_definitions.
Proof.
  split; cbn; repeat constructor; cbn; intuition discriminate.
Qed.

Lemma security_review_blocks_witness :
  exists alert row,
    (review_candidate (fun _ => "{}"%string) (fun _ => "{}"%string)
       (fun n => ("id-" ++ pretty n)%string) (fun n => (100 + Z.of_nat n)%Z)
       Scenarios.review_start
       (definition_of_row Scenarios.wiper_row)).(loop_alerts) = [alert] /\
    In "rm -rf"%string alert.(alert_hits) /\
    stored_definition
      (review_candidate (fun _ => "{}"%string) (fun _ => "{}"%string)
         (fun n => ("id-" ++ pretty n)%string)
         (fun n => (100 + Z.of_nat n)%Z)
         Scenarios.review_start
         (definition_of_row Scenarios.wiper_row)).(loop_memory) "d2"
    = Some row /\
    row.(def_is_active) = 0%Z /\
    row.(def_lifecycle_state) = "draft"%string.
Proof.
  destruct (security_review_blocks (fun _ => "{}"%string)
              (fun _ => "{}"%string) (fun n => ("id-" ++ pretty n)%string)
              (fun n => (100 + Z.of_nat n)%Z) Scenarios.review_start
              Scenarios.wiper_row "Run RM -RF / when asked." "rm -rf")
    as (alert & row & item & A & _ & _ & H & S & Act & L & _).
  - exact two_definitions_valid.
  - cbn. right. now left.
  - cbn. right. right. now left.
  - cbn. now left.
  - vm_compute. reflexivity.
  - exists alert, row. repeat split; assumption.
Defined.


End SecurityProperties.

Section MetaRouterProperties.
Import Models MetaRouter Properties.
Local Open Scope list_scope.

Lemma dedup_in (l : list string) (x : string) :
  In x (dedup l) <-> In x l.
Proof.
  induction l as [|y l IH]; cbn [dedup]; [tauto|].
  destruct (existsb (String.eqb y) l) eqn:E; cbn [In]; rewrite IH.
  - split; [tauto|]. intros [<-|I]; [|exact I].
    apply existsb_exists in E. destruct E as (z & I & E).
    apply String.eqb_eq in E. now subst z.
  - tauto.
Qed.

Lemma dedup_nodup (l : list string) : List.NoDup (dedup l).
Proof.
  induction l as [|y l IH]; cbn [dedup]; [constructor|].
  destruct (existsb (String.eqb y) l) eqn:E; [exact IH|].
  constructor; [|exact IH]. rewrite dedup_in. intros I.
  assert (X : existsb (String.eqb y) l = true).
  { apply existsb_exists. exists y. split; [exact I|].
    apply String.eqb_refl. }
  congruence.
Qed.

(** [_build_governance_plan] stops appending at [max_steps] steps. *)
Lemma build_governance_plan_prefix (targets : list string) (max_steps : Z) :
  fst (_build_governance_plan targets max_steps)
  = firstn (Z.to_nat max_steps) (governance_steps targets).
Proof.
  assert (C : max_steps <= 0 \/ max_steps = 1 \/ max_steps = 2 \/
              max_steps = 3 \/ max_steps = 4 \/ max_steps = 5 \/
              6 <= max_steps) by lia.
  destruct C as [C|[->|[->|[->|[->|[->|C]]]]]]; try reflexivity.
  - replace (Z.to_nat max_steps) with 0%nat by lia. cbn [firstn].
    unfold _build_governance_plan; cbn [fst].
    now rewrite !add_step_full by (cbn [length]; lia).
  - rewrite firstn_all2
      by (change (length (governance_steps targets)) with 6%nat; lia).
    unfold _build_governance_plan; cbn [fst]. unfold add_step.
    repeat (match goal with
            | |- context [max_steps <=? Z.of_nat (length ?l)] =>
                let n := eval cbn in (Z.of_nat (length l)) in
                change (Z.of_nat (length l)) with n;
                destruct (Z.leb_spec max_steps n); [lia|];
                cbn [app]
            end).
    reflexivity.
Qed.

Lemma governance_steps_fields (targets : list string) (s : Step) :
  In s (governance_steps targets) ->
  non_empty s.(step_agent) = true /\ s.(step_id) = None /\
  s.(step_depends_on) = [] /\ s.(step_max_retries) = 0 /\
  (forall ts, s.(step_input) = Targets ts -> ts = targets).
Proof.
  intros I. cbv [governance_steps _build_governance_plan add_step fst
                 length Z.of_nat Z.leb Z.compare Pos.of_succ_nat Pos.succ
                 Pos.compare Pos.compare_cont app] in I.
  cbn [In] in I.
  repeat (destruct I as [<-|I];
          [repeat split; try reflexivity;
           cbn [step_input]; intros ts E; congruence|]).
  destruct I.
Qed.

Lemma enrich_length (plan_id : string) (l : list Step) :
  (forall s, In s l -> non_empty s.(step_agent) = true) ->
  forall idx, length (enrich plan_id idx l) = length l.
Proof.
  induction l as [|s l IH]; intros H idx; cbn [enrich length];
    [reflexivity|].
  rewrite (H s) by now left. cbn [length]. f_equal. apply IH.
  intros x I. apply H. now right.
Qed.

(** The k-th step that [enrich] returns is the k-th step it was given,
    numbered from [idx]. *)
Lemma enrich_lookup (plan_id : string) (l : list Step) :
  (forall s, In s l ->
     non_empty s.(step_agent) = true /\ s.(step_id) = None) ->
  forall (idx k : nat) (s' : Step),
    enrich plan_id idx l !! k = Some s' ->
    exists s, l !! k = Some s /\
      s'.(step_id)
      = Some (plan_id ++ "_step_" ++ pretty (idx + k)%nat)%string /\
      s'.(step_agent) = s.(step_agent) /\
      s'.(step_input) = s.(step_input) /\
      s'.(step_depends_on) = s.(step_depends_on) /\
      s'.(step_max_retries) = s.(step_max_retries).
Proof.
  induction l as [|s l IH]; intros H idx k s' L; cbn [enrich] in L;
    [discriminate|].
  destruct (H s (or_introl eq_refl)) as [Na Ni]. rewrite Na, Ni in L.
  destruct k as [|k].
  - cbn in L. injection L as <-. exists s.
    rewrite Nat.add_0_r. now repeat split.
  - cbn in L. apply IH in L; [|intros x I; apply H; now right].
    destruct L as (x & Lx & Hx). exists x. split; [exact Lx|].
    now replace (idx + S k)%nat with (S idx + k)%nat by lia.
Qed.

(** X23.  When the meta-planner answers with a governance plan: its
    governance targets are the non-empty names that the metrics check or
    the stored security alerts gave, each once; the plan has
    min(max_steps, 6) steps after clamping max_steps to 1..20, so at least
    the architect step; the k-th step has the id
    [<plan_id>_step_<k>], counted from 1, no dependency and no retry; and
    a step that carries a list of targets carries the governance targets
    of the plan, which the first step always does. *)
Theorem governance_plan_shape
    (inp : Input) (user_last : string) (metrics : list (string * Metrics))
    (security_targets : list string) (emotional_state : EmotionalState)
    (internal_plan_id : string) (out : Output) :
  _run_impl_governance inp user_last metrics security_targets
    emotional_state internal_plan_id = Some out ->
  let from_metrics :=
    snd (_detect_governance_intent user_last inp metrics emotional_state) in
  List.NoDup out.(out_governance_targets) /\
  (forall t, In t out.(out_governance_targets) <->
             t <> ""%string /\
             (In t from_metrics \/ In t security_targets)) /\
  out.(out_plan_id) = internal_plan_id /\
  length out.(out_meta_plan) = Z.to_nat (Z.min (clamp_steps inp) 6) /\
  (1 <= length out.(out_meta_plan) <= 6)%nat /\
  (forall k s, out.(out_meta_plan) !! k = Some s ->
     s.(step_id)
     = Some (internal_plan_id ++ "_step_" ++ pretty (S k))%string /\
     s.(step_depends_on) = [] /\ s.(step_max_retries) = 0 /\
     (forall ts, s.(step_input) = Targets ts ->
                 ts = out.(out_governance_targets))) /\
  (exists s, out.(out_meta_plan) !! 0%nat = Some s /\
             s.(step_agent) = "architect_agent"%string /\
             s.(step_input) = Targets out.(out_governance_targets)).
Proof.
  intros R from_metrics. unfold _run_impl_governance in R.
  unfold from_metrics.
  destruct (_detect_governance_intent user_last inp metrics
              emotional_state) as [[gm reason] targets].
  cbn [snd].
  set (gt := dedup (List.filter non_empty (targets ++ security_targets)))
    in *.
  pose proof (build_governance_plan_prefix gt (clamp_steps inp)) as P.
  destruct (_build_governance_plan gt (clamp_steps inp))
    as [plan_list notes].
  cbn [fst] in P.
  destruct gm; [|discriminate]. injection R as <-.
  cbn [out_governance_targets out_plan_id out_meta_plan].
  assert (Cl : 1 <= clamp_steps inp <= 20) by (unfold clamp_steps; lia).
  assert (Len6 : length (governance_steps gt) = 6%nat) by reflexivity.
  assert (Len : length plan_list = Z.to_nat (Z.min (clamp_steps inp) 6)).
  { rewrite P, length_firstn, Len6. lia. }
  assert (Cut : (if clamp_steps inp <? Z.of_nat (length plan_list)
                 then firstn (Z.to_nat (clamp_steps inp)) plan_list
                 else plan_list) = plan_list).
  { destruct (Z.ltb_spec (clamp_steps inp) (Z.of_nat (length plan_list)));
      [lia|reflexivity]. }
  rewrite Cut.
  assert (Sub : forall s, In s plan_list -> In s (governance_steps gt)).
  { intros s I. rewrite P in I. now apply in_firstn in I. }
  assert (F : forall s, In s plan_list ->
                non_empty (step_agent s) = true /\ step_id s = None).
  { intros s I. destruct (governance_steps_fields gt s (Sub s I))
      as (A & B & _). now split. }
  assert (EL : length (enrich internal_plan_id 1 plan_list)
               = length plan_list).
  { apply enrich_length. intros s I. now apply F. }
  split; [apply dedup_nodup|].
  split.
  { intros t. unfold gt. rewrite dedup_in, List.filter_In, in_app_iff.
    unfold non_empty. destruct t as [|c t].
    - split; [intros [_ B]; discriminate|intros [A _]; congruence].
    - split; intros [A B]; split;
        solve [discriminate|reflexivity|assumption]. }
  split; [reflexivity|].
  split; [now rewrite EL|].
  split; [rewrite EL, Len; lia|].
  split.
  - intros k s L. apply (enrich_lookup _ _ F) in L.
    destruct L as (x & Lx & Hid & _ & Hin & Hd & Hr).
    assert (Ix : In x plan_list).
    { apply list_elem_of_In. eapply list_elem_of_lookup_2, Lx. }
    destruct (governance_steps_fields gt x (Sub x Ix))
      as (_ & _ & D & M & T).
    rewrite Hid, Hd, Hr, Hin. now repeat split.
  - assert (H0 : plan_list !! 0%nat
                 = Some {| step_id := None;
                           step_agent := "architect_agent";
                           step_description :=
                             "Definisce o aggiorna la configurazione degli agent candidati alla governance.";
                           step_input := Targets gt;
                           step_depends_on := [];
                           step_max_retries := 0 |}).
    { rewrite P.
      destruct (Z.to_nat (clamp_steps inp)) as [|n] eqn:E; [lia|].
      reflexivity. }
    destruct plan_list as [|s0 rest]; [discriminate|].
    cbn in H0. injection H0 as ->. cbn [enrich].
    cbn [step_agent non_empty]. eexists. split; [reflexivity|].
    now split.
Qed.

Lemma governance_plan_shape_witness :
  exists out,
    _run_impl_governance Scenarios.no_input "il report non parte"
      Scenarios.failing_metrics ["X"; ""; "cleanup_agent"]%string
      Scenarios.frustrated "p1" = Some out /\
    (forall t, In t out.(out_governance_targets) <->
               t <> ""%string /\
               (In t ["X"]%string \/
                In t ["X"; ""; "cleanup_agent"]%string)) /\
    length out.(out_meta_plan) = 6%nat.
Proof.
  eexists. split; [vm_compute; reflexivity|].
  destruct (governance_plan_shape Scenarios.no_input "il report non parte"
              Scenarios.failing_metrics ["X"; ""; "cleanup_agent"]%string
              Scenarios.frustrated "p1" _ eq_refl)
    as (_ & T & _ & L & _).
  split; [exact T|exact L].
Defined.

End MetaRouterProperties.
